(** * finance_manager: a shallow embedding of the transaction pipeline

    The development follows the Go packages of the repository:
    [domain] (records), [repository] (sentinel errors), [validator],
    [memory] (the in-memory repositories) and [processor] (fraud detector,
    rule engine, transaction processor).

    Conventions of the embedding.
    - [float64] amounts and balances are exact rationals ([Q]); a result the
      code computes is compared with Leibniz equality on the expression the
      code builds, an arithmetic identity with [Qeq].  Rounding, infinities
      and NaN are outside the model.
    - [int] is [Z]; where the code subtracts two arbitrary [int]s the 64-bit
      wrap-around is written out ([wrap64]).
    - Go methods that return [error] return a [result]: [Ok], [Err] or
      [Panic] (a run-time panic such as a write to a nil map).
    - Mutable state is threaded explicitly: [World] holds the account
      objects (a heap of [Account] addressed by pointers), the repositories'
      maps, the validator's set of seen identifiers, the rule cache, the
      event channel, the metrics and the wall clock.
    - [time.Now()] reads an oracle: the [n]-th read of a run returns
      [w_clock n]; nothing is assumed about the values read.
    - Standard-library functions whose code is not part of the repository
      (calendar arithmetic of [time], [encoding/json], [regexp], [fmt],
      [sort] and [slices]) are the fields of the class [GoLib].
    - Receivers and collaborators are non-nil; calls on a [*slog.Logger]
      only write to the log sink and are left out.  ([NewTransactionProcessor]
      does not assign the processor's [logger] field; the model is of a
      processor whose logger is set.)
    - A Go map is ranged over in an unspecified order; the model visits the
      entries in the order of [map_to_list].  Nothing proved below depends
      on that order. *)

From Stdlib Require Import ZArith QArith List Ascii String Lia Permutation.
From stdpp Require Import base gmap sets list strings.

Open Scope Z_scope.

(** ** Results, errors and the state monad *)

#[local] Set Warnings "-register-all,-clear-no-such-hyp".

Inductive error : Type :=
  | ErrInvalidAmount
  | ErrInvalidCurrency
  | ErrInvalidAccount
  | ErrDuplicateTransaction
  | ErrNotFound
  | ErrDuplicate
  | ErrInsufficientFunds
  | ErrAccountSuspended
  | ErrTransactionConflict
  | ErrNew (msg : string)                      (* errors.New / fmt.Errorf without %w *)
  | ErrAggregate (msg : string) (errs : list error) (* fmt.Errorf("...: %v", errs) *)
  | ErrWrap (msg : string) (e : error).        (* fmt.Errorf("...: %w", err) *)

(** [errors.Is err target]: walks the chain of [%w] wrappers. *)
Fixpoint errors_Is (err target : error) : Prop :=
  err = target \/
  match err with
  | ErrWrap _ e => errors_Is e target
  | _ => False
  end.

Inductive result (A : Type) : Type :=
  | Ok (a : A)
  | Err (e : error)
  | Panic (msg : string).
Arguments Ok {A} a.
Arguments Err {A} e.
Arguments Panic {A} msg.

Definition M (S A : Type) : Type := S -> result A * S.

Definition ret {S A} (a : A) : M S A := fun s => (Ok a, s).
Definition fail {S A} (e : error) : M S A := fun s => (Err e, s).
Definition panic {S A} (msg : string) : M S A := fun s => (Panic msg, s).
Definition bind {S A B} (m : M S A) (k : A -> M S B) : M S B :=
  fun s =>
    match m s with
    | (Ok a, s') => k a s'
    | (Err e, s') => (Err e, s')
    | (Panic msg, s') => (Panic msg, s')
    end.
Definition get {S} : M S S := fun s => (Ok s, s).
Definition gets {S A} (f : S -> A) : M S A := fun s => (Ok (f s), s).
Definition modify {S} (f : S -> S) : M S unit := fun s => (Ok tt, f s).

(** [try m]: runs [m] and hands its error value to the caller, the way Go
    code inspects a returned [err]; a panic still unwinds. *)
Definition try {S A} (m : M S A) : M S (A + error) :=
  fun s =>
    match m s with
    | (Ok a, s') => (Ok (inl a), s')
    | (Err e, s') => (Ok (inr e), s')
    | (Panic msg, s') => (Panic msg, s')
    end.

#[global] Instance M_ret {S} : MRet (M S) := fun A a => ret a.
#[global] Instance M_bind {S} : MBind (M S) := fun A B k m => bind m k.

(** Comparison of [float64] values. *)
Definition Qltb (a b : Q) : bool := negb (Qle_bool b a).
Definition Qgtb (a b : Q) : bool := Qltb b a.

Definition wrap64 (z : Z) : Z := (z + 2 ^ 63) mod 2 ^ 64 - 2 ^ 63.

(** A [time.Time] is an instant, in nanoseconds since the Unix epoch. *)
Definition Time : Type := Z.
Definition Minute : Z := 60 * 1000000000.
Definition Hour : Z := 60 * Minute.
Definition time_After (t u : Time) : bool := u <? t.
Definition time_Before (t u : Time) : bool := t <? u.
Definition time_Add (t : Time) (d : Z) : Time := t + d.

(** Values of type [interface{}]: the dynamic types [encoding/json] stores
    in one, and [[]string], which the rule engine asserts. *)
Inductive GoValue : Type :=
  | VNil
  | VBool (b : bool)
  | VFloat64 (q : Q)
  | VString (s : string)
  | VSlice (l : list GoValue)                  (* []interface{} *)
  | VMap (m : list (string * GoValue))         (* map[string]interface{} *)
  | VStrings (l : list string).                (* []string *)

(** ** Package domain *)
Module domain.

Definition TypeDeposit : string := "deposit".
Definition TypeWithdrawal : string := "withdrawal".
Definition TypeTransfer : string := "transfer".

Definition StatusPending : string := "pending".
Definition StatusProcessing : string := "processing".
Definition StatusCompleted : string := "completed".
Definition StatusFailed : string := "failed".
Definition StatusSuspicious : string := "suspicious".

Definition AccountActive : string := "active".
Definition AccountClosed : string := "closed".

(** [Metadata] is a Go map: [None] is the nil map. *)
Record Transaction : Type := mkTransaction {
  ID : string;
  Type_ : string;
  Amount : Q;
  Currency : string;
  FromAccountID : string;
  ToAccountID : string;
  Description : string;
  Status : string;
  CreatedAt : Time;
  UpdatedAt : Time;
  Metadata : option (gmap string string);
  RiskScore : Z;
  FraudFlags : list string
}.

Definition set_Status (v : string) (t : Transaction) : Transaction :=
  mkTransaction (ID t) (Type_ t) (Amount t) (Currency t) (FromAccountID t)
    (ToAccountID t) (Description t) v (CreatedAt t) (UpdatedAt t)
    (Metadata t) (RiskScore t) (FraudFlags t).
Definition set_UpdatedAt (v : Time) (t : Transaction) : Transaction :=
  mkTransaction (ID t) (Type_ t) (Amount t) (Currency t) (FromAccountID t)
    (ToAccountID t) (Description t) (Status t) (CreatedAt t) v
    (Metadata t) (RiskScore t) (FraudFlags t).
Definition set_Metadata (v : option (gmap string string)) (t : Transaction)
  : Transaction :=
  mkTransaction (ID t) (Type_ t) (Amount t) (Currency t) (FromAccountID t)
    (ToAccountID t) (Description t) (Status t) (CreatedAt t) (UpdatedAt t)
    v (RiskScore t) (FraudFlags t).
Definition set_RiskScore (v : Z) (t : Transaction) : Transaction :=
  mkTransaction (ID t) (Type_ t) (Amount t) (Currency t) (FromAccountID t)
    (ToAccountID t) (Description t) (Status t) (CreatedAt t) (UpdatedAt t)
    (Metadata t) v (FraudFlags t).
Definition set_FraudFlags (v : list string) (t : Transaction) : Transaction :=
  mkTransaction (ID t) (Type_ t) (Amount t) (Currency t) (FromAccountID t)
    (ToAccountID t) (Description t) (Status t) (CreatedAt t) (UpdatedAt t)
    (Metadata t) (RiskScore t) v.

(** Reading a Go map, nil or not: the value and the [exists] flag. *)
Definition metadata_get (t : Transaction) (k : string) : option string :=
  match Metadata t with
  | Some m => m !! k
  | None => None
  end.

Inductive EventValue : Type :=
  | EInt (z : Z)
  | EStrings (l : list string).

Record TransactionEvent : Type := mkTransactionEvent {
  ev_TransactionID : string;
  ev_Type : string;
  ev_Payload : list (string * EventValue);
  ev_Timestamp : Time
}.

Record Account : Type := mkAccount {
  acc_ID : string;
  acc_UserID : string;
  Balance : Q;
  acc_Currency : string;
  acc_Status : string;
  DailyLimit : Q;
  MonthlyLimit : Q;
  acc_CreatedAt : Time;
  LastActivityAt : Time;
  RiskCategory : string
}.

Definition set_Balance (v : Q) (a : Account) : Account :=
  mkAccount (acc_ID a) (acc_UserID a) v (acc_Currency a) (acc_Status a)
    (DailyLimit a) (MonthlyLimit a) (acc_CreatedAt a) (LastActivityAt a)
    (RiskCategory a).
Definition set_LastActivityAt (v : Time) (a : Account) : Account :=
  mkAccount (acc_ID a) (acc_UserID a) (Balance a) (acc_Currency a)
    (acc_Status a) (DailyLimit a) (MonthlyLimit a) (acc_CreatedAt a) v
    (RiskCategory a).

Record Rule : Type := mkRule {
  rule_ID : string;
  rule_Name : string;
  rule_Type : string;
  rule_Description : string;
  Condition : string;
  Action : string;
  Priority : Z;
  IsActive : bool;
  Version : Z
}.

(** The remaining fields that the code assigns. *)
Definition set_Description (v : string) (t : Transaction) : Transaction :=
  mkTransaction (ID t) (Type_ t) (Amount t) (Currency t) (FromAccountID t)
    (ToAccountID t) v (Status t) (CreatedAt t) (UpdatedAt t)
    (Metadata t) (RiskScore t) (FraudFlags t).
Definition set_FromAccountID (v : string) (t : Transaction) : Transaction :=
  mkTransaction (ID t) (Type_ t) (Amount t) (Currency t) v
    (ToAccountID t) (Description t) (Status t) (CreatedAt t) (UpdatedAt t)
    (Metadata t) (RiskScore t) (FraudFlags t).
Definition set_ToAccountID (v : string) (t : Transaction) : Transaction :=
  mkTransaction (ID t) (Type_ t) (Amount t) (Currency t) (FromAccountID t)
    v (Description t) (Status t) (CreatedAt t) (UpdatedAt t)
    (Metadata t) (RiskScore t) (FraudFlags t).
Definition set_acc_CreatedAt (v : Time) (a : Account) : Account :=
  mkAccount (acc_ID a) (acc_UserID a) (Balance a) (acc_Currency a)
    (acc_Status a) (DailyLimit a) (MonthlyLimit a) v (LastActivityAt a)
    (RiskCategory a).
Definition set_Version (v : Z) (r : Rule) : Rule :=
  mkRule (rule_ID r) (rule_Name r) (rule_Type r) (rule_Description r)
    (Condition r) (Action r) (Priority r) (IsActive r) v.
Definition set_IsActive (v : bool) (r : Rule) : Rule :=
  mkRule (rule_ID r) (rule_Name r) (rule_Type r) (rule_Description r)
    (Condition r) (Action r) (Priority r) v (Version r).

(** The zero [time.Time]: January 1, year 1, 00:00 UTC. *)
Definition zero_Time : Time := -62135596800 * 1000000000.

(** [NewTransaction]: [id] is the identifier that [generateTransactionID]
    draws (8 random bytes, hex-encoded) and [now] the instant [time.Now()]
    returns. *)
Definition NewTransaction (id : string) (now : Time)
    (t : string) (amount : Q) (currency : string) : Transaction :=
  mkTransaction id t amount currency "" "" "" StatusPending now zero_Time
    (Some ∅) 0 [].

Definition WithDescription (desc : string) (tx : Transaction) : Transaction :=
  set_Description desc tx.

Definition WithAccounts (fromID toID : string) (tx : Transaction)
  : Transaction :=
  set_ToAccountID toID (set_FromAccountID fromID tx).

Definition AddMetadata (key value : string) (tx : Transaction) : Transaction :=
  let tx := if Metadata tx is None then set_Metadata (Some ∅) tx else tx in
  set_Metadata (Some (<[key := value]> (default ∅ (Metadata tx)))) tx.

End domain.
Import domain.

(** ** Rule-engine records (package processor), needed by [GoLib] *)

Record Condition : Type := mkCondition {
  Field : string;
  Operator : string;
  Value : GoValue
}.

(** [Params] is a Go map: [None] is the nil map. *)
Record RuleAction : Type := mkRuleAction {
  ra_Type : string;
  Params : option (gmap string GoValue);
  Message : string
}.

Record RuleResult : Type := mkRuleResult {
  RuleID : string;
  RuleName : string;
  Triggered : bool;
  rr_Action : RuleAction;
  rr_Description : string
}.

(** ** The Go standard library, as far as the code calls it *)

Class GoLib : Type := {
  (* package time: calendar fields of an instant in the local zone *)
  time_Hour : Time -> Z;
  time_Hour_range : forall t, 0 <= time_Hour t < 24;
  time_Year : Time -> Z;
  time_Month : Time -> Z;
  time_Day : Time -> Z;
  (* time.Date(y, m, d, 0, 0, 0, 0, loc); [true] selects time.UTC *)
  time_Date : Z -> Z -> Z -> bool -> Time;
  (* t.AddDate(0, 1, 0) *)
  time_AddMonth : Time -> Time;
  (* json.Unmarshal into a Condition / a RuleAction; None is an error *)
  json_Unmarshal_Condition : string -> option Condition;
  json_Unmarshal_RuleAction : string -> option RuleAction;
  (* regexp.Compile, giving MatchString of the compiled expression *)
  regexp_Compile : string -> option (string -> bool);
  (* fmt.Sprintf("%v", v) *)
  fmt_Sprint : GoValue -> string;
  (* slices.SortFunc and sort.Slice: some reordering of the slice *)
  slices_SortFunc : forall A : Type, (A -> A -> Z) -> list A -> list A;
  slices_SortFunc_perm :
    forall A cmp l, Permutation (slices_SortFunc A cmp l) l;
  sort_Slice : forall A : Type, (A -> A -> bool) -> list A -> list A;
  sort_Slice_perm : forall A less l, Permutation (sort_Slice A less l) l
}.

(** ** The state of a running process *)

Definition ptr : Type := nat.

Record World : Type := mkWorld {
  w_clock : nat -> Time;
  w_ticks : nat;
  w_heap : gmap ptr Account;                (* *domain.Account objects *)
  w_accounts : gmap string ptr;             (* memory.AccountRepository.accounts *)
  w_transactions : gmap string Transaction; (* memory.TransactionRepository.transactions *)
  w_index : gmap string (list string);      (* memory.TransactionRepository.index *)
  w_rules : gmap string Rule;               (* memory.RuleRepository.rules *)
  w_seen : gset string;                     (* validator.TransactionValidator.seen *)
  w_cache : gmap string (list Rule);        (* processor.RuleEngine.cache *)
  w_eventCh : list TransactionEvent;        (* TransactionProcessor.eventCh *)
  w_metrics : gmap string Z                 (* TransactionProcessor.metrics *)
}.

Definition set_ticks (v : nat) (w : World) : World :=
  mkWorld (w_clock w) v (w_heap w) (w_accounts w) (w_transactions w)
    (w_index w) (w_rules w) (w_seen w) (w_cache w) (w_eventCh w) (w_metrics w).
Definition set_heap (v : gmap ptr Account) (w : World) : World :=
  mkWorld (w_clock w) (w_ticks w) v (w_accounts w) (w_transactions w)
    (w_index w) (w_rules w) (w_seen w) (w_cache w) (w_eventCh w) (w_metrics w).
Definition set_accounts (v : gmap string ptr) (w : World) : World :=
  mkWorld (w_clock w) (w_ticks w) (w_heap w) v (w_transactions w)
    (w_index w) (w_rules w) (w_seen w) (w_cache w) (w_eventCh w) (w_metrics w).
Definition set_transactions (v : gmap string Transaction) (w : World) : World :=
  mkWorld (w_clock w) (w_ticks w) (w_heap w) (w_accounts w) v
    (w_index w) (w_rules w) (w_seen w) (w_cache w) (w_eventCh w) (w_metrics w).
Definition set_index (v : gmap string (list string)) (w : World) : World :=
  mkWorld (w_clock w) (w_ticks w) (w_heap w) (w_accounts w) (w_transactions w)
    v (w_rules w) (w_seen w) (w_cache w) (w_eventCh w) (w_metrics w).
Definition set_seen (v : gset string) (w : World) : World :=
  mkWorld (w_clock w) (w_ticks w) (w_heap w) (w_accounts w) (w_transactions w)
    (w_index w) (w_rules w) v (w_cache w) (w_eventCh w) (w_metrics w).
Definition set_cache (v : gmap string (list Rule)) (w : World) : World :=
  mkWorld (w_clock w) (w_ticks w) (w_heap w) (w_accounts w) (w_transactions w)
    (w_index w) (w_rules w) (w_seen w) v (w_eventCh w) (w_metrics w).
Definition set_eventCh (v : list TransactionEvent) (w : World) : World :=
  mkWorld (w_clock w) (w_ticks w) (w_heap w) (w_accounts w) (w_transactions w)
    (w_index w) (w_rules w) (w_seen w) (w_cache w) v (w_metrics w).
Definition set_metrics (v : gmap string Z) (w : World) : World :=
  mkWorld (w_clock w) (w_ticks w) (w_heap w) (w_accounts w) (w_transactions w)
    (w_index w) (w_rules w) (w_seen w) (w_cache w) (w_eventCh w) v.

Definition set_rules (v : gmap string Rule) (w : World) : World :=
  mkWorld (w_clock w) (w_ticks w) (w_heap w) (w_accounts w) (w_transactions w)
    (w_index w) v (w_seen w) (w_cache w) (w_eventCh w) (w_metrics w).

(** [time.Now()] *)
Definition time_Now : M World Time :=
  fun w => (Ok (w_clock w (w_ticks w)), set_ticks (S (w_ticks w)) w).

(** Dereferencing an account pointer; a dangling pointer does not occur in
    a well-formed world and is a panic here. *)
Definition load (p : ptr) : M World Account :=
  fun w =>
    match w_heap w !! p with
    | Some a => (Ok a, w)
    | None => (Panic "invalid memory address or nil pointer dereference", w)
    end.

Definition update (p : ptr) (f : Account -> Account) : M World unit :=
  a ← load p; modify (fun w => set_heap (<[p := f a]> (w_heap w)) w).

(** ** Package validator *)
Module validator.

Definition is_upper (c : ascii) : bool :=
  let n := Z.of_N (Ascii.N_of_ascii c) in (65 <=? n) && (n <=? 90).

(** [regexp.MustCompile(`^[A-Z]{3}$`).MatchString] *)
Definition currencyRegex_MatchString (s : string) : bool :=
  match s with
  | String a (String b (String c EmptyString)) =>
      is_upper a && is_upper b && is_upper c
  | _ => false
  end.

Definition ErrSameAccount : error := ErrNew "cannot transfer to same account".
Definition ErrFutureDate : error :=
  ErrNew "transaction date cannot be in the future".

Definition check_amount (tx : Transaction) : list error :=
  if Qle_bool (Amount tx) 0 then [ErrInvalidAmount] else [].
Definition check_currency (tx : Transaction) : list error :=
  if negb (currencyRegex_MatchString (Currency tx)) then [ErrInvalidCurrency]
  else [].
Definition check_accounts (tx : Transaction) : list error :=
  if String.eqb (Type_ tx) TypeTransfer then
    (if String.eqb (FromAccountID tx) "" || String.eqb (ToAccountID tx) ""
     then [ErrInvalidAccount] else [])
    ++ (if String.eqb (FromAccountID tx) (ToAccountID tx)
        then [ErrSameAccount] else [])
  else [].
Definition check_date (tx : Transaction) (now : Time) : list error :=
  if time_After (CreatedAt tx) (time_Add now (5 * Minute))
  then [ErrFutureDate] else [].

Definition ValidateTransaction (tx : Transaction) : M World unit :=
  let errs := check_amount tx ++ check_currency tx ++ check_accounts tx in
  now ← time_Now;
  let errs := errs ++ check_date tx now in
  seen ← gets w_seen;
  if bool_decide (ID tx ∈ seen) then fail ErrDuplicateTransaction
  else
    modify (fun w => set_seen ({[ ID tx ]} ∪ w_seen w) w);;
    if (0 <? Z.of_nat (length errs)) then
      fail (ErrAggregate "validation errors" errs)
    else ret tt.

Definition limits (currency : string) : option Q :=
  if String.eqb currency "USD" then Some (1000000 # 1)%Q
  else if String.eqb currency "EUR" then Some (900000 # 1)%Q
  else if String.eqb currency "GBP" then Some (800000 # 1)%Q
  else None.

Definition ValidateAmount (amount : Q) (currency : string) : result unit :=
  if Qle_bool amount 0 then Err ErrInvalidAmount
  else
    match limits currency with
    | Some max =>
        if Qgtb amount max
        then Err (ErrNew "amount exceeds maximum limit") else Ok tt
    | None => Ok tt
    end.

End validator.

(** ** Package memory: the in-memory repositories *)
Module memory.
Section with_lib.
Context `{!GoLib}.

Definition values {V} (m : gmap string V) : list V := (map_to_list m).*2.

(** *** AccountRepository *)

Definition AccountRepository_GetByID (id : string) : M World ptr :=
  accounts ← gets w_accounts;
  match accounts !! id with
  | Some account => ret account
  | None => fail (ErrWrap "account" ErrNotFound)
  end.

Definition AccountRepository_Update (account : ptr) : M World unit :=
  a ← load account;
  accounts ← gets w_accounts;
  match accounts !! acc_ID a with
  | None => fail (ErrWrap "account" ErrNotFound)
  | Some _ =>
      now ← time_Now;
      update account (set_LastActivityAt now);;
      modify (fun w => set_accounts (<[acc_ID a := account]> (w_accounts w)) w)
  end.

(** *** TransactionRepository

    The repository keeps the pointer it is given; within one call of the
    processor nothing writes to a transaction after it is saved, so the
    map holds the value saved. *)

Definition index_append (k id : string) (w : World) : World :=
  set_index (<[k := default [] (w_index w !! k) ++ [id]]> (w_index w)) w.

Definition TransactionRepository_Save (tx : Transaction)
  : M World Transaction :=
  transactions ← gets w_transactions;
  match transactions !! ID tx with
  | Some _ => fail (ErrWrap "transaction" ErrDuplicate)
  | None =>
      now ← time_Now;
      let tx := set_UpdatedAt now tx in
      modify (fun w => set_transactions (<[ID tx := tx]> (w_transactions w)) w);;
      (if negb (String.eqb (FromAccountID tx) "")
       then modify (index_append (FromAccountID tx) (ID tx)) else ret tt);;
      (if negb (String.eqb (ToAccountID tx) "")
       then modify (index_append (ToAccountID tx) (ID tx)) else ret tt);;
      ret tx
  end.

Definition TransactionRepository_GetByPeriod (from to : Time)
  : M World (list Transaction) :=
  transactions ← gets w_transactions;
  let result :=
    filter (fun tx => negb (time_Before (CreatedAt tx) from)
                      && negb (time_After (CreatedAt tx) to) = true)
           (values transactions) in
  ret (sort_Slice _
         (fun a b => time_Before (CreatedAt a) (CreatedAt b)) result).

Definition in_volume (accountID : string) (start end_ : Time)
    (tx : Transaction) : bool :=
  (String.eqb (FromAccountID tx) accountID
   || String.eqb (ToAccountID tx) accountID)
  && negb (time_Before (CreatedAt tx) start)
  && time_Before (CreatedAt tx) end_
  && String.eqb (Status tx) StatusCompleted.

Definition volume (accountID : string) (start end_ : Time)
    (txs : list Transaction) : Q :=
  fold_left
    (fun total tx =>
       if in_volume accountID start end_ tx then (total + Amount tx)%Q
       else total)
    txs 0%Q.

Definition TransactionRepository_GetDailyVolume (accountID : string)
    (date : Time) : M World Q :=
  transactions ← gets w_transactions;
  let startOfDay :=
    time_Date (time_Year date) (time_Month date) (time_Day date) false in
  let endOfDay := time_Add startOfDay (24 * Hour) in
  ret (volume accountID startOfDay endOfDay (values transactions)).

Definition TransactionRepository_GetMonthlyVolume (accountID : string)
    (year month : Z) : M World Q :=
  transactions ← gets w_transactions;
  let startOfMonth := time_Date year month 1 true in
  let endOfMonth := time_AddMonth startOfMonth in
  ret (volume accountID startOfMonth endOfMonth (values transactions)).

(** *** RuleRepository *)

Definition RuleRepository_GetByID (id : string) : M World Rule :=
  rules ← gets w_rules;
  match rules !! id with
  | Some rule => ret rule
  | None => fail (ErrWrap "rule" ErrNotFound)
  end.

Definition RuleRepository_GetActiveRules : M World (list Rule) :=
  rules ← gets w_rules;
  let result := filter (fun rule => IsActive rule = true) (values rules) in
  ret (sort_Slice _ (fun a b => Priority b <? Priority a) result).

(** *** The other methods of the repositories *)

(** [AccountRepository.Save] and [GetByUserID] also use the repository's
    [userIndex], which [World] does not hold: their state is the world
    paired with that map. *)
Definition lift_fst {S T A} (m : M S A) : M (S * T) A :=
  fun '(s, t) => let '(r, s') := m s in (r, (s', t)).

Definition AccountRepository_Save (account : ptr)
  : M (World * gmap string (list string)) unit :=
  a ← lift_fst (load account);
  accounts ← lift_fst (gets w_accounts);
  match accounts !! acc_ID a with
  | Some _ => fail (ErrWrap "account" ErrDuplicate)
  | None =>
      now ← lift_fst time_Now;
      lift_fst (update account (set_acc_CreatedAt now));;
      now ← lift_fst time_Now;
      lift_fst (update account (set_LastActivityAt now));;
      lift_fst (modify (fun w =>
                  set_accounts (<[acc_ID a := account]> (w_accounts w)) w));;
      modify (fun '(w, userIndex) =>
                (w, <[acc_UserID a :=
                        default [] (userIndex !! acc_UserID a) ++ [acc_ID a]]>
                      userIndex))
  end.

Definition AccountRepository_GetByUserID (userID : string)
  : M (World * gmap string (list string)) (list ptr) :=
  fun '(w, userIndex) =>
    match userIndex !! userID with
    | None => (Err (ErrWrap "user" ErrNotFound), (w, userIndex))
    | Some accountIDs =>
        (Ok (omap (fun id => w_accounts w !! id) accountIDs), (w, userIndex))
    end.



(** The loops of [GetAllActive] and [GetByRiskCategory]: the accounts of
    the map that satisfy [keep], in the order they are visited. *)
Fixpoint select_accounts (keep : Account -> bool) (ps : list ptr)
  : M World (list ptr) :=
  match ps with
  | [] => ret []
  | account :: ps' =>
      a ← load account;
      result ← select_accounts keep ps';
      ret (if keep a then account :: result else result)
  end.

Definition AccountRepository_GetAllActive : M World (list ptr) :=
  accounts ← gets w_accounts;
  select_accounts (fun a => String.eqb (acc_Status a) AccountActive)
    (values accounts).

Definition AccountRepository_GetByRiskCategory (category : string)
  : M World (list ptr) :=
  accounts ← gets w_accounts;
  select_accounts (fun a => String.eqb (RiskCategory a) category)
    (values accounts).

Definition TransactionRepository_GetByID (id : string) : M World Transaction :=
  transactions ← gets w_transactions;
  match transactions !! id with
  | Some tx => ret tx
  | None => fail (ErrWrap "transaction" ErrNotFound)
  end.

Definition TransactionRepository_GetByStatus (status : string)
  : M World (list Transaction) :=
  transactions ← gets w_transactions;
  let result :=
    filter (fun tx => String.eqb (Status tx) status = true)
           (values transactions) in
  ret (sort_Slice _
         (fun a b => time_After (CreatedAt a) (CreatedAt b)) result).

Definition TransactionRepository_UpdateStatus (id status : string)
  : M World unit :=
  transactions ← gets w_transactions;
  match transactions !! id with
  | None => fail (ErrWrap "transaction" ErrNotFound)
  | Some tx =>
      now ← time_Now;
      let tx := set_UpdatedAt now (set_Status status tx) in
      modify (fun w => set_transactions (<[id := tx]> (w_transactions w)) w)
  end.

(** The rule repository keeps the pointer it is given; the model stores the
    value the object has when the method returns. *)
Definition RuleRepository_Save (rule : Rule) : M World unit :=
  rules ← gets w_rules;
  match rules !! rule_ID rule with
  | Some _ => fail (ErrWrap "rule" ErrDuplicate)
  | None =>
      modify (fun w =>
                set_rules (<[rule_ID rule := set_Version 1 rule]> (w_rules w)) w)
  end.

Definition by_priority (rules : list Rule) : list Rule :=
  sort_Slice _ (fun a b => Priority b <? Priority a) rules.

Definition RuleRepository_GetAll : M World (list Rule) :=
  rules ← gets w_rules;
  ret (by_priority (values rules)).

Definition RuleRepository_GetByType (ruleType : string) : M World (list Rule) :=
  rules ← gets w_rules;
  ret (by_priority
         (filter (fun rule => String.eqb (rule_Type rule) ruleType = true)
                 (values rules))).

Definition RuleRepository_Update (rule : Rule) : M World unit :=
  rules ← gets w_rules;
  match rules !! rule_ID rule with
  | None => fail (ErrWrap "rule" ErrNotFound)
  | Some existing =>
      modify (fun w =>
                set_rules
                  (<[rule_ID rule := set_Version (wrap64 (Version existing + 1))
                                       rule]> (w_rules w))
                  w)
  end.

Definition RuleRepository_Deactivate (id : string) : M World unit :=
  rules ← gets w_rules;
  match rules !! id with
  | None => fail (ErrWrap "rule" ErrNotFound)
  | Some rule =>
      modify (fun w => set_rules (<[id := set_IsActive false rule]> (w_rules w)) w)
  end.

Definition RuleRepository_GetByPriority (minPriority maxPriority : Z)
  : M World (list Rule) :=
  rules ← gets w_rules;
  ret (by_priority
         (filter (fun rule => (minPriority <=? Priority rule)
                              && (Priority rule <=? maxPriority)
                              && IsActive rule = true)
                 (values rules))).

End with_lib.
End memory.

(** ** Package processor *)
Module processor.

#[global] Instance result_ret : MRet result := fun A a => Ok a.
#[global] Instance result_bind : MBind result :=
fun A B k m =>
  match m with
  | Ok a => k a
  | Err e => Err e
  | Panic msg => Panic msg
  end.

(** Running a pure step inside the state monad. *)
Definition lift_result {S A} (r : result A) : M S A := fun s => (r, s).

Section with_lib.
Context `{!GoLib}.

(** *** FraudDetector *)

Record FraudPattern : Type := mkFraudPattern {
  Name : string;
  fp_Description : string;
  Detect : Transaction -> M World (bool * string);
  Weight : Z
}.

Record FraudDetector : Type := mkFraudDetector {
  patterns : list FraudPattern
}.

Definition detectLargeAmount (tx : Transaction) : M World (bool * string) :=
  ret (Qgtb (Amount tx) (10000 # 1), "large_amount").

(** [tx.Amount > 5000 && time.Now().Hour() < 6]: the clock is read only
    when the first operand holds. *)
Definition detectFrequentTransactions (tx : Transaction)
  : M World (bool * string) :=
  if Qgtb (Amount tx) (5000 # 1) then
    now ← time_Now;
    ret (time_Hour now <? 6, "frequent_transactions")
  else ret (false, "frequent_transactions").

Definition detectGeographicalAnomaly (tx : Transaction)
  : M World (bool * string) :=
  match metadata_get tx "location" with
  | Some location =>
      ret (String.eqb location "high_risk_country", "geographical_anomaly")
  | None => ret (false, "")
  end.

Definition detectVelocityAnomaly (tx : Transaction)
  : M World (bool * string) :=
  match metadata_get tx "velocity" with
  | Some velocity =>
      if String.eqb velocity "high" then ret (true, "velocity_anomaly")
      else ret (false, "")
  | None => ret (false, "")
  end.

Definition NewFraudDetector : FraudDetector :=
  mkFraudDetector
    [ mkFraudPattern "large_amount" "Transaction amount exceeds threshold"
        detectLargeAmount 30;
      mkFraudPattern "frequent_transactions"
        "Too many transactions in short time"
        detectFrequentTransactions 25;
      mkFraudPattern "geographical_anomaly"
        "Transaction from unusual location"
        detectGeographicalAnomaly 35;
      mkFraudPattern "velocity_check" "Unusual transaction velocity"
        detectVelocityAnomaly 40 ].

Definition applyTimeBasedModifiers (tx : Transaction) (baseScore : Z)
  : M World Z :=
  now ← time_Now;
  let hour := time_Hour now in
  if (23 <=? hour) || (hour <=? 5) then ret (baseScore + 15)
  else ret baseScore.

(** The [for _, pattern := range fd.patterns] loop. *)
Fixpoint analyze_patterns (ps : list FraudPattern) (tx : Transaction)
    (riskScore : Z) (flags : list string) : M World (Z * list string) :=
  match ps with
  | [] => ret (riskScore, flags)
  | pattern :: ps' =>
      '(detected, flag) ← Detect pattern tx;
      if detected : bool
      then analyze_patterns ps' tx (riskScore + Weight pattern) (flags ++ [flag])
      else analyze_patterns ps' tx riskScore flags
  end.

Definition AnalyzeTransaction (fd : FraudDetector) (tx : Transaction)
  : M World (Z * list string) :=
  '(riskScore, flags) ← analyze_patterns (patterns fd) tx 0 [];
  riskScore ← (if 0 <? riskScore then applyTimeBasedModifiers tx riskScore
               else ret riskScore);
  ret (Z.min riskScore 100, flags).

(** *** RuleEngine *)

Definition parseCondition (conditionStr : string) : result Condition :=
  match json_Unmarshal_Condition conditionStr with
  | Some condition => Ok condition
  | None => Err (ErrWrap "invalid condition JSON" (ErrNew "json"))
  end.

Definition parseAction (actionStr : string) : result RuleAction :=
  match json_Unmarshal_RuleAction actionStr with
  | Some action => Ok action
  | None => Err (ErrWrap "invalid action JSON" (ErrNew "json"))
  end.

Definition compare_float64 (operator : string) (value targetValue : Q)
  : result bool :=
  if String.eqb operator ">" then Ok (Qgtb value targetValue)
  else if String.eqb operator ">=" then Ok (Qle_bool targetValue value)
  else if String.eqb operator "<" then Ok (Qltb value targetValue)
  else if String.eqb operator "<=" then Ok (Qle_bool value targetValue)
  else if String.eqb operator "==" then Ok (Qeq_bool value targetValue)
  else if String.eqb operator "!=" then Ok (negb (Qeq_bool value targetValue))
  else Err (ErrNew "unknown operator").

Definition checkAmountCondition (condition : Condition) (amount : Q)
  : result bool :=
  match Value condition with
  | VFloat64 targetValue =>
      compare_float64 (Operator condition) amount targetValue
  | _ => Err (ErrNew "invalid value type for amount")
  end.

Definition checkNumericCondition (condition : Condition) (value : Q)
  : result bool :=
  match Value condition with
  | VFloat64 targetValue =>
      compare_float64 (Operator condition) value targetValue
  | _ => Err (ErrNew "invalid value type for numeric field")
  end.

(** [slices.Contains] *)
Definition slices_Contains (arr : list string) (value : string) : bool :=
  existsb (String.eqb value) arr.

Definition checkStringCondition (condition : Condition) (value : string)
  : result bool :=
  match Value condition with
  | VString targetValue =>
      if String.eqb (Operator condition) "==" then
        Ok (String.eqb value targetValue)
      else if String.eqb (Operator condition) "!=" then
        Ok (negb (String.eqb value targetValue))
      else if String.eqb (Operator condition) "contains" then
        match regexp_Compile targetValue with       (* regexp.MustCompile *)
        | Some matchString => Ok (matchString value)
        | None => Panic "regexp: Compile: error parsing regexp"
        end
      else if String.eqb (Operator condition) "in" then
        match Value condition with
        | VStrings arr => Ok (slices_Contains arr value)
        | _ => Err (ErrNew "invalid value for 'in' operator")
        end
      else Err (ErrNew "unknown operator")
  | _ => Err (ErrNew "invalid value type for string field")
  end.

(** The loop returns [false] at the first key that is missing or whose
    value differs, so the result does not depend on the iteration order. *)
Definition checkMetadataCondition (condition : Condition)
    (metadata : option (gmap string string)) : result bool :=
  match Value condition with
  | VMap conditions =>
      Ok (forallb
            (fun '(key, expectedValue) =>
               match metadata ≫= (.!! key) with
               | None => false
               | Some actualValue =>
                   String.eqb (fmt_Sprint (VString actualValue))
                              (fmt_Sprint expectedValue)
               end)
            conditions)
  | _ => Err (ErrNew "invalid value type for metadata condition")
  end.

Definition checkCondition (condition : Condition) (tx : Transaction)
  : result bool :=
  if String.eqb (Field condition) "amount" then
    checkAmountCondition condition (Amount tx)
  else if String.eqb (Field condition) "currency" then
    checkStringCondition condition (Currency tx)
  else if String.eqb (Field condition) "type" then
    checkStringCondition condition (Type_ tx)
  else if String.eqb (Field condition) "risk_score" then
    checkNumericCondition condition (inject_Z (RiskScore tx))
  else if String.eqb (Field condition) "metadata" then
    checkMetadataCondition condition (Metadata tx)
  else Err (ErrNew "unknown field").

Definition zero_RuleAction : RuleAction := mkRuleAction "" None "".

Definition evaluateRule (rule : Rule) (tx : Transaction) : result RuleResult :=
  match parseCondition (domain.Condition rule) with
  | Err err => Err (ErrWrap "failed to parse condition" err)
  | Panic msg => Panic msg
  | Ok condition =>
      match checkCondition condition tx with
      | Err err => Err (ErrWrap "failed to check condition" err)
      | Panic msg => Panic msg
      | Ok triggered =>
          if triggered then
            match parseAction (domain.Action rule) with
            | Err err => Err (ErrWrap "failed to parse action" err)
            | Panic msg => Panic msg
            | Ok action =>
                Ok (mkRuleResult (rule_ID rule) (rule_Name rule) triggered
                      action (rule_Description rule))
            end
          else
            Ok (mkRuleResult (rule_ID rule) (rule_Name rule) triggered
                  zero_RuleAction (rule_Description rule))
      end
  end.

Definition getActiveRules : M World (list Rule) :=
  cache ← gets w_cache;
  match cache !! "active" with
  | Some cached => ret cached
  | None =>
      rules ← memory.RuleRepository_GetActiveRules;
      modify (fun w => set_cache (<["active" := rules]> (w_cache w)) w);;
      ret rules
  end.

(** The cache only ever has the key ["active"], so the order in which its
    entries are visited is immaterial. *)
Definition getRulePriority (w : World) (ruleID : string) : Z :=
  match
    find (fun rule => String.eqb (rule_ID rule) ruleID)
         (concat (memory.values (w_cache w)))
  with
  | Some rule => Priority rule
  | None =>
      match memory.RuleRepository_GetByID ruleID w with
      | (Ok rule, _) => Priority rule
      | _ => 0
      end
  end.

(** The [for _, rule := range rules] loop: a rule whose evaluation returns
    an error is logged and skipped. *)
Fixpoint evaluate_rules (rules : list Rule) (tx : Transaction)
    (results : list RuleResult) : result (list RuleResult) :=
  match rules with
  | [] => Ok results
  | rule :: rules' =>
      match evaluateRule rule tx with
      | Panic msg => Panic msg
      | Err _ => evaluate_rules rules' tx results
      | Ok result =>
          if Triggered result
          then evaluate_rules rules' tx (results ++ [result])
          else evaluate_rules rules' tx results
      end
  end.

Definition EvaluateRules (tx : Transaction) : M World (list RuleResult) :=
  r ← try getActiveRules;
  match r with
  | inr err => fail (ErrWrap "failed to get active rules" err)
  | inl rules =>
      results ← lift_result (evaluate_rules rules tx []);
      w ← get;
      ret (slices_SortFunc _
             (fun a b => wrap64 (getRulePriority w (RuleID a)
                                 - getRulePriority w (RuleID b)))
             results)
  end.


(** [v, _ := action.Params[key].(string)]: the zero value when the key is
    missing or holds another type; reading a nil map is allowed. *)
Definition param_string (action : RuleAction) (key : string) : string :=
  match Params action ≫= (.!! key) with
  | Some (VString s) => s
  | _ => ""
  end.

Definition param_float64 (action : RuleAction) (key : string) : Q :=
  match Params action ≫= (.!! key) with
  | Some (VFloat64 q) => q
  | _ => 0%Q
  end.

(** [tx.Metadata[key] = value]: an assignment to an entry of a nil map
    panics. *)
Definition metadata_set (key value : string) : M Transaction unit :=
  fun tx =>
    match Metadata tx with
    | Some m => (Ok tt, set_Metadata (Some (<[key := value]> m)) tx)
    | None => (Panic "assignment to entry in nil map", tx)
    end.

Definition handleFlagAction (action : RuleAction) : M Transaction unit :=
  let reason := param_string action "reason" in
  tx ← get;
  (if Metadata tx is None then modify (set_Metadata (Some ∅)) else ret tt);;
  metadata_set "flagged_reason" reason.

Definition handleBlockAction (action : RuleAction) : M Transaction unit :=
  let reason := param_string action "reason" in
  modify (set_Status StatusFailed);;
  metadata_set "block_reason" reason.

Definition handleApprovalAction (action : RuleAction) : M Transaction unit :=
  modify (set_Status StatusPending);;
  metadata_set "requires_approval" "true".

Definition handleNotifyAction (action : RuleAction) : M Transaction unit :=
  ret tt.

(** [int(adjustment)] truncates towards zero. *)
Definition int_of_float64 (q : Q) : Z := wrap64 (Qnum q ÷ Z.pos (Qden q)).

Definition handleRiskAdjustAction (action : RuleAction)
  : M Transaction unit :=
  let adjustment := param_float64 action "adjustment" in
  modify (fun tx =>
            set_RiskScore (wrap64 (RiskScore tx + int_of_float64 adjustment))
              tx);;
  tx ← get;
  (if 100 <? RiskScore tx then modify (set_RiskScore 100) else ret tt);;
  tx ← get;
  (if RiskScore tx <? 0 then modify (set_RiskScore 0) else ret tt).

Definition ExecuteAction (action : RuleAction) : M Transaction unit :=
  if String.eqb (ra_Type action) "flag_transaction" then
    handleFlagAction action
  else if String.eqb (ra_Type action) "block_transaction" then
    handleBlockAction action
  else if String.eqb (ra_Type action) "require_approval" then
    handleApprovalAction action
  else if String.eqb (ra_Type action) "notify" then
    handleNotifyAction action
  else if String.eqb (ra_Type action) "adjust_risk_score" then
    handleRiskAdjustAction action
  else fail (ErrNew "unknown action type").

(** *** TransactionProcessor *)

Definition checkAccountLimits (account : ptr) (tx : Transaction)
  : M World unit :=
  a ← load account;
  now ← time_Now;
  r ← try (memory.TransactionRepository_GetDailyVolume (acc_ID a) now);
  match r with
  | inr err => fail (ErrWrap "failed to get daily volume" err)
  | inl dailyVolume =>
      if Qgtb (DailyLimit a) 0
         && Qgtb (dailyVolume + Amount tx) (DailyLimit a)
      then fail (ErrNew "daily limit exceeded")
      else
        now ← time_Now;
        r ← try (memory.TransactionRepository_GetMonthlyVolume (acc_ID a)
                   (time_Year now) (time_Month now));
        match r with
        | inr err => fail (ErrWrap "failed to get monthly volume" err)
        | inl monthlyVolume =>
            if Qgtb (MonthlyLimit a) 0
               && Qgtb (monthlyVolume + Amount tx) (MonthlyLimit a)
            then fail (ErrNew "monthly limit exceeded")
            else ret tt
        end
  end.

Definition maxDepositAmount : Q := 50000 # 1.

Definition checkDepositLimits (account : ptr) (tx : Transaction)
  : M World unit :=
  if Qgtb (Amount tx) maxDepositAmount
  then fail (ErrNew "deposit amount exceeds maximum limit")
  else ret tt.

Definition getDailyWithdrawal (accountID : string) (date : Time)
  : M World Q :=
  let startOfDay :=
    time_Date (time_Year date) (time_Month date) (time_Day date) false in
  let endOfDay := time_Add startOfDay (24 * Hour) in
  transactions ← memory.TransactionRepository_GetByPeriod startOfDay endOfDay;
  ret (fold_left
         (fun totalWithdrawal tx =>
            if String.eqb (FromAccountID tx) accountID
               && String.eqb (Type_ tx) TypeWithdrawal
               && String.eqb (Status tx) StatusCompleted
            then (totalWithdrawal + Amount tx)%Q else totalWithdrawal)
         transactions 0%Q).

Definition dailyWithdrawalLimit : Q := 5000 # 1.

Definition checkWithdrawalLimits (account : ptr) (tx : Transaction)
  : M World unit :=
  a ← load account;
  now ← time_Now;
  r ← try (getDailyWithdrawal (acc_ID a) now);
  match r with
  | inr err => fail (ErrWrap "failed to get daily withdrawal" err)
  | inl dailyWithdrawal =>
      if Qgtb (dailyWithdrawal + Amount tx) dailyWithdrawalLimit
      then fail (ErrNew "daily withdrawal limit exceeded")
      else ret tt
  end.

(** Runs a repository call and wraps the error it returns. *)
Definition wrap_err {A} (msg : string) (m : M World A) : M World A :=
  r ← try m;
  match r with
  | inr err => fail (ErrWrap msg err)
  | inl a => ret a
  end.

Definition processTransfer (tx : Transaction) : M World unit :=
  fromAccount ← wrap_err "failed to get from account"
                  (memory.AccountRepository_GetByID (FromAccountID tx));
  toAccount ← wrap_err "failed to get to account"
                (memory.AccountRepository_GetByID (ToAccountID tx));
  from ← load fromAccount;
  to ← load toAccount;
  if negb (String.eqb (acc_Currency from) (acc_Currency to)) then
    fail (ErrNew "currency mismatch")
  else if negb (String.eqb (acc_Status from) AccountActive) then
    fail (ErrNew "from account is not active")
  else if negb (String.eqb (acc_Status to) AccountActive) then
    fail (ErrNew "to account is not active")
  else if Qltb (Balance from) (Amount tx) then
    fail ErrInsufficientFunds
  else
    checkAccountLimits fromAccount tx;;
    update fromAccount (fun a => set_Balance (Balance a - Amount tx) a);;
    update toAccount (fun a => set_Balance (Balance a + Amount tx) a);;
    now ← time_Now;
    update fromAccount (set_LastActivityAt now);;
    update toAccount (set_LastActivityAt now);;
    wrap_err "failed to update from account"
      (memory.AccountRepository_Update fromAccount);;
    r ← try (memory.AccountRepository_Update toAccount);
    match r with
    | inr err =>
        update fromAccount (fun a => set_Balance (Balance a + Amount tx) a);;
        _ ← try (memory.AccountRepository_Update fromAccount);
        fail (ErrWrap "failed to update to account" err)
    | inl _ => ret tt
    end.

Definition processDeposit (tx : Transaction) : M World unit :=
  if String.eqb (ToAccountID tx) "" then
    fail (ErrNew "to account is required for deposit")
  else
    toAccount ← wrap_err "failed to get to account"
                  (memory.AccountRepository_GetByID (ToAccountID tx));
    to ← load toAccount;
    if negb (String.eqb (acc_Status to) AccountActive) then
      fail (ErrNew "account is not active")
    else
      checkDepositLimits toAccount tx;;
      update toAccount (fun a => set_Balance (Balance a + Amount tx) a);;
      now ← time_Now;
      update toAccount (set_LastActivityAt now);;
      wrap_err "failed to update account"
        (memory.AccountRepository_Update toAccount).

Definition processWithdrawal (tx : Transaction) : M World unit :=
  if String.eqb (FromAccountID tx) "" then
    fail (ErrNew "from account is required for withdrawal")
  else
    fromAccount ← wrap_err "failed to get from account"
                    (memory.AccountRepository_GetByID (FromAccountID tx));
    from ← load fromAccount;
    if negb (String.eqb (acc_Status from) AccountActive) then
      fail (ErrNew "account is not active")
    else if Qltb (Balance from) (Amount tx) then
      fail ErrInsufficientFunds
    else
      checkWithdrawalLimits fromAccount tx;;
      update fromAccount (fun a => set_Balance (Balance a - Amount tx) a);;
      now ← time_Now;
      update fromAccount (set_LastActivityAt now);;
      wrap_err "failed to update account"
        (memory.AccountRepository_Update fromAccount).

(** The body runs with [p.mu] held; the mutex has no content in a
    sequential run. *)
Definition executeTransaction (tx : Transaction) : M World unit :=
  if String.eqb (Type_ tx) TypeTransfer then processTransfer tx
  else if String.eqb (Type_ tx) TypeDeposit then processDeposit tx
  else if String.eqb (Type_ tx) TypeWithdrawal then processWithdrawal tx
  else fail (ErrNew "unknown transaction type").

Definition recordMetric (key : string) (value : Z) : M World unit :=
  modify (fun w =>
            set_metrics
              (<[key := default 0 (w_metrics w !! key) + value]> (w_metrics w))
              w).

(** [ProcessTransaction] works on the caller's transaction object and on
    the world: its state is the pair of both. *)
Definition PState : Type := Transaction * World.

Definition liftW {A} (m : M World A) : M PState A :=
  fun '(tx, w) => let '(r, w') := m w in (r, (tx, w')).
Definition withTx {A} (f : Transaction -> M World A) : M PState A :=
  fun '(tx, w) => let '(r, w') := f tx w in (r, (tx, w')).
Definition modifyTx (f : Transaction -> Transaction) : M PState unit :=
  fun '(tx, w) => (Ok tt, (f tx, w)).

(** [p.eventCh <- ev] on the buffered channel; a full buffer, which would
    block the sender, is not modelled. *)
Definition send_event (ev : TransactionEvent) : M World unit :=
  modify (fun w => set_eventCh (w_eventCh w ++ [ev]) w).

Definition txRepo_Save : M PState unit :=
  fun '(tx, w) =>
    match memory.TransactionRepository_Save tx w with
    | (Ok tx', w') => (Ok tt, (tx', w'))
    | (Err e, w') => (Err e, (tx, w'))
    | (Panic msg, w') => (Panic msg, (tx, w'))
    end.

Definition ProcessTransaction (fd : FraudDetector) : M PState unit :=
  r ← try (withTx validator.ValidateTransaction);
  match r with
  | inr err => fail (ErrWrap "validation failed" err)
  | inl _ =>
      '(riskScore, flags) ← withTx (AnalyzeTransaction fd);
      modifyTx (set_RiskScore riskScore);;
      modifyTx (set_FraudFlags flags);;
      r ← try (withTx EvaluateRules);
      match r with
      | inr err => fail (ErrWrap "rule evaluation failed" err)
      | inl _ =>
          (if 80 <? riskScore then
             modifyTx (set_Status StatusSuspicious);;
             now ← liftW time_Now;
             withTx (fun tx =>
               send_event
                 (mkTransactionEvent (ID tx) "transaction_suspicious"
                    [("risk_score", EInt riskScore);
                     ("flags", EStrings flags)]
                    now))
           else if 50 <? riskScore then
             modifyTx (set_Status StatusPending)
           else
             withTx executeTransaction;;
             modifyTx (set_Status StatusCompleted));;
          txRepo_Save;;
          liftW (recordMetric "transactions_processed" 1)
      end
  end.

Definition GetTransaction (transactionID : string) : M World Transaction :=
  memory.TransactionRepository_GetByID transactionID.

Definition GetMetrics : M World (gmap string Z) := gets w_metrics.

End with_lib.
End processor.

(** ** Package api: the parts of the HTTP handlers that decide the answer *)
Module api.
Section with_lib.
Context `{!GoLib}.

Record CreateTransactionRequest : Type := mkCreateTransactionRequest {
  req_Type : string;
  req_Amount : Q;
  req_Currency : string;
  req_FromAccountID : string;
  req_ToAccountID : string;
  req_Description : string;
  req_Metadata : list (string * string);
  req_Signature : string
}.

(** [len(req.Currency)] counts bytes. *)
Definition validateTransactionRequest (req : CreateTransactionRequest)
  : result unit :=
  if Qle_bool (req_Amount req) 0 then Err (ErrNew "amount must be positive")
  else if String.eqb (req_Currency req) "" then
    Err (ErrNew "currency is required")
  else if negb (Nat.eqb (String.length (req_Currency req)) 3) then
    Err (ErrNew "currency must be 3 letters")
  else if String.eqb (req_Type req) TypeTransfer then
    if String.eqb (req_FromAccountID req) ""
       || String.eqb (req_ToAccountID req) ""
    then Err (ErrNew "from_account_id and to_account_id are required for transfers")
    else Ok tt
  else if String.eqb (req_Type req) TypeWithdrawal then
    if String.eqb (req_FromAccountID req) ""
    then Err (ErrNew "from_account_id is required for withdrawals")
    else Ok tt
  else if String.eqb (req_Type req) TypeDeposit then
    if String.eqb (req_ToAccountID req) ""
    then Err (ErrNew "to_account_id is required for deposits")
    else Ok tt
  else Err (ErrNew ("unknown transaction type: " ++ req_Type req)).

(** The transaction [CreateTransactionHandler] builds from a request:
    [NewTransaction], [WithDescription], [WithAccounts] and one
    [AddMetadata] per entry of the request's metadata. *)
Definition request_transaction (id : string) (now : Time)
    (req : CreateTransactionRequest) : Transaction :=
  foldl (fun tx '(k, v) => AddMetadata k v tx)
    (WithAccounts (req_FromAccountID req) (req_ToAccountID req)
       (WithDescription (req_Description req)
          (NewTransaction id now (req_Type req) (req_Amount req)
             (req_Currency req))))
    (req_Metadata req).

(** What a handler sends: the HTTP status and, for [sendError], the error
    code. *)
Record Response : Type := mkResponse {
  statusCode : Z;
  code : string;
  body : option Transaction
}.

Definition StatusOK : Z := 200.
Definition StatusBadRequest : Z := 400.
Definition StatusNotFound : Z := 404.
Definition StatusInternalServerError : Z := 500.

(** [GetTransactionHandler], given the value of the query parameter [id];
    [err == repository.ErrNotFound] compares the error value itself. *)
Definition GetTransactionHandler (transactionID : string) : M World Response :=
  if String.eqb transactionID "" then
    ret (mkResponse StatusBadRequest "MISSING_ID" None)
  else
    r ← try (processor.GetTransaction transactionID);
    match r with
    | inr ErrNotFound => ret (mkResponse StatusNotFound "NOT_FOUND" None)
    | inr _ => ret (mkResponse StatusInternalServerError "SERVER_ERROR" None)
    | inl tx => ret (mkResponse StatusOK "" (Some tx))
    end.

End with_lib.
End api.

(** * Definitions the statements use *)

(** Successive calls of [ValidateTransaction] on one validator. *)
Fixpoint validate_all (txs : list Transaction) (w : World)
  : list (result unit) * World :=
  match txs with
  | [] => ([], w)
  | tx :: txs' =>
      let '(r, w1) := validator.ValidateTransaction tx w in
      let '(rs, w2) := validate_all txs' w1 in
      (r :: rs, w2)
  end.

(** The violations [ValidateTransaction] collects for a transaction when
    the clock reads [now]. *)
Definition violations (tx : Transaction) (now : Time) : list error :=
  (validator.check_amount tx ++ validator.check_currency tx
   ++ validator.check_accounts tx) ++ validator.check_date tx now.

(** The fraud score as the specification words it: the weights of the
    triggered detectors at the hour the frequent-transactions detector
    reads, the late-night surcharge, and the clamp. *)
Definition weight_if (b : bool) (weight : Z) : Z := if b then weight else 0.

Definition large_amount (tx : Transaction) : bool :=
  Qgtb (Amount tx) (10000 # 1).

Definition frequent_transactions (tx : Transaction) (hour : Z) : bool :=
  Qgtb (Amount tx) (5000 # 1) && (hour <? 6).

Definition geographical_anomaly (tx : Transaction) : bool :=
  bool_decide (metadata_get tx "location" = Some "high_risk_country").

Definition velocity_check (tx : Transaction) : bool :=
  bool_decide (metadata_get tx "velocity" = Some "high").

Definition detector_sum (tx : Transaction) (hour : Z) : Z :=
  weight_if (large_amount tx) 30
  + weight_if (frequent_transactions tx hour) 25
  + weight_if (geographical_anomaly tx) 35
  + weight_if (velocity_check tx) 40.

(** 23:00 to 05:59 *)
Definition late_night (hour : Z) : bool :=
  (hour =? 23) || ((0 <=? hour) && (hour <=? 5)).

Definition surcharge (sum hour : Z) : Z :=
  if negb (sum =? 0) && late_night hour then 15 else 0.

Definition clamp (lo hi z : Z) : Z := Z.max lo (Z.min z hi).

Definition flag_if (b : bool) (flag : string) : list string :=
  if b then [flag] else [].

Definition detector_flags (tx : Transaction) (hour : Z) : list string :=
  flag_if (large_amount tx) "large_amount"
  ++ flag_if (frequent_transactions tx hour) "frequent_transactions"
  ++ flag_if (geographical_anomaly tx) "geographical_anomaly"
  ++ flag_if (velocity_check tx) "velocity_anomaly".

Definition surcharge_reads (sum : Z) : nat :=
  if 0 <? sum then 1%nat else 0%nat.

(** The number of times [AnalyzeTransaction] reads the clock before the
    surcharge is computed: once, for a transaction above 5,000. *)
Definition detector_reads (tx : Transaction) : nat :=
  if Qgtb (Amount tx) (5000 # 1) then 1%nat else 0%nat.


(** Stages that leave the accounts, the stored transactions and the event
    channel alone. *)
Definition same_ledger (w w' : World) : Prop :=
  w_heap w' = w_heap w /\ w_accounts w' = w_accounts w
  /\ w_transactions w' = w_transactions w /\ w_eventCh w' = w_eventCh w
  /\ w_clock w' = w_clock w.


(** What a rule adds to the results of [EvaluateRules]. *)
Definition rule_results `{!GoLib} (rule : Rule) (tx : Transaction)
  : list RuleResult :=
  match processor.evaluateRule rule tx with
  | Ok result => if Triggered result then [result] else []
  | _ => []
  end.

Section statements.
Context `{!GoLib}.






End statements.

(** ** Definitions for the further properties *)

(** An upper-case ASCII letter. *)
Definition upper_letter (c : ascii) : Prop :=
  (nat_of_ascii "A" <= nat_of_ascii c <= nat_of_ascii "Z")%nat.

(** What [ValidateTransaction] requires of a transaction whose identifier
    is new, when the clock reads [now]. *)
Definition acceptable (tx : Transaction) (now : Time) : Prop :=
  (0 < Amount tx)%Q
  /\ (exists a b c,
        Currency tx = String a (String b (String c EmptyString))
        /\ upper_letter a /\ upper_letter b /\ upper_letter c)
  /\ (Type_ tx = TypeTransfer ->
      FromAccountID tx <> "" /\ ToAccountID tx <> ""
      /\ FromAccountID tx <> ToAccountID tx)
  /\ CreatedAt tx <= now + 5 * Minute.

(** The fields of a transaction that describe the request, as opposed to
    the annotations of the pipeline (status, risk score, flags, update
    time). *)
Definition same_request (tx tx' : Transaction) : Prop :=
  ID tx' = ID tx /\ Type_ tx' = Type_ tx /\ Amount tx' = Amount tx
  /\ Currency tx' = Currency tx /\ FromAccountID tx' = FromAccountID tx
  /\ ToAccountID tx' = ToAccountID tx /\ Description tx' = Description tx
  /\ CreatedAt tx' = CreatedAt tx /\ Metadata tx' = Metadata tx.

(** A computation on the processor's state keeps the invariant [I]. *)
Definition preserves {A} (I : Transaction * World -> Prop)
    (m : M (Transaction * World) A) : Prop :=
  forall s, I s -> I (m s).2.

(** The invariant: the transaction still is the request [tx0]. *)
Definition is_request (tx0 : Transaction) (s : Transaction * World) : Prop :=
  same_request tx0 s.1.

(** The storage invariant of the account repository: every identifier of
    the map leads to an account object that carries this identifier. *)
Definition repo_wf (w : World) : Prop :=
  forall id account,
    w_accounts w !! id = Some account ->
    exists a, w_heap w !! account = Some a /\ acc_ID a = id.












(** What the ledger operations leave alone: everything but the account
    objects, the map of the account repository and the number of clock
    readings. *)
Definition untouched (w w' : World) : Prop :=
  w_transactions w' = w_transactions w /\ w_index w' = w_index w
  /\ w_rules w' = w_rules w /\ w_seen w' = w_seen w
  /\ w_cache w' = w_cache w /\ w_eventCh w' = w_eventCh w
  /\ w_metrics w' = w_metrics w /\ w_clock w' = w_clock w.

Definition frames {A} (m : M World A) : Prop :=
  forall w w', untouched w w' -> untouched w (m w').2.

(** The stored transactions and the counters are those of [w], and the
    transaction carries the identifier [id]. *)
Definition records_kept (id : string) (w : World)
    (s : Transaction * World) : Prop :=
  ID s.1 = id /\ w_transactions s.2 = w_transactions w
  /\ w_metrics s.2 = w_metrics w.

(** The transaction of the state is stored under its identifier [id] and
    counted once more than in [w]. *)
Definition recorded (id : string) (w : World)
    (s : Transaction * World) : Prop :=
  ID s.1 = id /\ w_transactions s.2 !! id = Some s.1
  /\ w_metrics s.2
     = <["transactions_processed" :=
           default 0 (w_metrics w !! "transactions_processed") + 1]>
         (w_metrics w).

(** A postcondition [Q] for a returned value and [E] for an error or a
    panic. *)
Definition triple {S A} (P : S -> Prop) (m : M S A)
    (Q : A -> S -> Prop) (E : S -> Prop) : Prop :=
  forall s, P s ->
    match m s with
    | (Ok a, s') => Q a s'
    | (_, s') => E s'
    end.


(** The fields of an account that [Save], [Update] and the status and
    balance updates of the repository do not all write: everything but the
    two time stamps. *)
Definition same_account_data (a a' : Account) : Prop :=
  acc_ID a' = acc_ID a /\ acc_UserID a' = acc_UserID a
  /\ Balance a' = Balance a /\ acc_Currency a' = acc_Currency a
  /\ acc_Status a' = acc_Status a /\ DailyLimit a' = DailyLimit a
  /\ MonthlyLimit a' = MonthlyLimit a /\ RiskCategory a' = RiskCategory a.


(** * A concrete library instance and sample data

    [sample_lib] runs the model on concrete inputs: the calendar is the
    proleptic Gregorian calendar in UTC, sorting is a stable insertion sort,
    the decoders know the rule texts of the examples below, and a regular
    expression without metacharacters matches where it occurs as a
    substring. *)
Module sample.

(** Days since 1970-01-01 of a civil date, and back. *)
Definition days_from_civil (y m d : Z) : Z :=
  let y := if m <=? 2 then y - 1 else y in
  let era := y / 400 in
  let yoe := y - era * 400 in
  let doy := (153 * (if 2 <? m then m - 3 else m + 9) + 2) / 5 + d - 1 in
  let doe := yoe * 365 + yoe / 4 - yoe / 100 + doy in
  era * 146097 + doe - 719468.

Definition civil_from_days (z : Z) : Z * Z * Z :=
  let z := z + 719468 in
  let era := z / 146097 in
  let doe := z - era * 146097 in
  let yoe := (doe - doe / 1460 + doe / 36524 - doe / 146096) / 365 in
  let doy := doe - (365 * yoe + yoe / 4 - yoe / 100) in
  let mp := (5 * doy + 2) / 153 in
  let d := doy - (153 * mp + 2) / 5 + 1 in
  let m := if mp <? 10 then mp + 3 else mp - 9 in
  let y := yoe + era * 400 in
  (if m <=? 2 then y + 1 else y, m, d).

Definition Day : Z := 24 * Hour.

Definition civil (t : Time) : Z * Z * Z := civil_from_days (t / Day).

Definition utc_Hour (t : Time) : Z := (t / Hour) mod 24.

Definition utc_Date (y m d : Z) (utc : bool) : Time :=
  days_from_civil y m d * Day.

Definition utc_AddMonth (t : Time) : Time :=
  let '(y, m, d) := civil t in days_from_civil y (m + 1) d * Day + t mod Day.

Fixpoint insert_by {A} (le : A -> A -> bool) (x : A) (l : list A) : list A :=
  match l with
  | [] => [x]
  | y :: l' => if le x y then x :: l else y :: insert_by le x l'
  end.

Definition insertion_sort {A} (le : A -> A -> bool) (l : list A) : list A :=
  foldr (insert_by le) [] l.

(** The JSON texts of the examples are written with ['] for the double
    quote. *)
Definition json_quote (c : ascii) : ascii :=
  if Ascii.eqb c "'"%char then ascii_of_nat 34 else c.

Fixpoint json_text (s : string) : string :=
  match s with
  | EmptyString => EmptyString
  | String c s' => String (json_quote c) (json_text s')
  end.

Definition cond_amount_gt_1000 : string :=
  json_text "{'field':'amount','operator':'>','value':1000}".

Definition cond_currency_in : string :=
  json_text "{'field':'currency','operator':'in','value':['USD','EUR']}".

Definition cond_currency_bad_regexp : string :=
  json_text "{'field':'currency','operator':'contains','value':'('}".

Definition cond_unknown_field : string :=
  json_text "{'field':'country','operator':'==','value':'US'}".

Definition cond_not_json : string := "amount > 1000".

Definition action_flag : string :=
  json_text "{'type':'flag_transaction','params':{'reason':'high_amount'},'message':'High transaction amount'}".

Definition action_not_json : string := "flag".

Definition decode_Condition (s : string) : option Condition :=
  if String.eqb s cond_amount_gt_1000 then
    Some (mkCondition "amount" ">" (VFloat64 (1000 # 1)))
  else if String.eqb s cond_currency_in then
    Some (mkCondition "currency" "in" (VSlice [VString "USD"; VString "EUR"]))
  else if String.eqb s cond_currency_bad_regexp then
    Some (mkCondition "currency" "contains" (VString "("))
  else if String.eqb s cond_unknown_field then
    Some (mkCondition "country" "==" (VString "US"))
  else None.

Definition decode_RuleAction (s : string) : option RuleAction :=
  if String.eqb s action_flag then
    Some (mkRuleAction "flag_transaction"
            (Some {[ "reason" := VString "high_amount" ]})
            "High transaction amount")
  else None.

Definition compile (pattern : string) : option (string -> bool) :=
  if String.eqb pattern "(" then None
  else Some (fun s => if String.index 0 pattern s is Some _ then true else false).

Definition sprint (v : GoValue) : string :=
  match v with
  | VString s => s
  | VBool true => "true"
  | VBool false => "false"
  | _ => "<nil>"
  end.

End sample.

Definition sample_lib : GoLib.
Proof.
  assert (Hinsert : forall A (le : A -> A -> bool) x l,
            Permutation (sample.insert_by le x l) (x :: l)).
  { intros A le x l. induction l as [|y l IH]; simpl; [done|].
    destruct (le x y); [done|]. rewrite IH. apply perm_swap. }
  assert (Hsort : forall A (le : A -> A -> bool) l,
            Permutation (sample.insertion_sort le l) l).
  { intros A le l. induction l as [|x l IH]; simpl; [done|].
    unfold sample.insertion_sort in *. simpl.
    rewrite Hinsert. by constructor. }
  refine {|
    time_Hour := sample.utc_Hour;
    time_Year := fun t => (sample.civil t).1.1;
    time_Month := fun t => (sample.civil t).1.2;
    time_Day := fun t => (sample.civil t).2;
    time_Date := sample.utc_Date;
    time_AddMonth := sample.utc_AddMonth;
    json_Unmarshal_Condition := sample.decode_Condition;
    json_Unmarshal_RuleAction := sample.decode_RuleAction;
    regexp_Compile := sample.compile;
    fmt_Sprint := sample.sprint;
    slices_SortFunc :=
      fun A cmp => sample.insertion_sort (fun a b => cmp a b <=? 0);
    sort_Slice :=
      fun A less => sample.insertion_sort (fun a b => negb (less b a))
  |}.
  - intros t. unfold sample.utc_Hour. apply Z.mod_pos_bound. lia.
  - intros A cmp l. apply Hsort.
  - intros A less l. apply Hsort.
Defined.

Definition noon : Time := (19797 * 24 + 12) * Hour.   (* 2024-03-15 12:00 UTC *)

Definition night : Time := (19797 * 24 + 2) * Hour.   (* 2024-03-15 02:00 UTC *)

Definition acct_a1 : Account :=
  mkAccount "a1" "u1" (1000 # 1) "USD" AccountActive 0 0 0 0 "".

Definition acct_a2 : Account :=
  mkAccount "a2" "u2" (500 # 1) "USD" AccountActive 0 0 0 0 "".

Definition world0 : World :=
  mkWorld (fun _ => noon) 0
    {[ 0%nat := acct_a1; 1%nat := acct_a2 ]}
    {[ "a1" := 0%nat; "a2" := 1%nat ]}
    ∅ ∅ ∅ ∅ ∅ [] ∅.

Definition tx_transfer : Transaction :=
  mkTransaction "tx1" TypeTransfer (200 # 1) "USD" "a1" "a2" "" StatusPending
    noon 0 None 0 [].


Definition tx_zero_amount : Transaction :=
  mkTransaction "tx2" TypeDeposit 0 "USD" "" "a2" "" StatusPending
    noon 0 None 0 [].

Definition tx_corrected : Transaction :=
  mkTransaction "tx2" TypeDeposit (10 # 1) "USD" "" "a2" "" StatusPending
    noon 0 None 0 [].

Definition tx_large : Transaction :=
  mkTransaction "tx3" TypeDeposit (20000 # 1) "USD" "" "a2" "" StatusPending
    night 0 None 0 [].

Definition world_night : World :=
  mkWorld (fun _ => night) 0 ∅ ∅ ∅ ∅ ∅ ∅ ∅ [] ∅.

Definition risky_metadata : gmap string string :=
  {[ "location" := "high_risk_country"; "velocity" := "high" ]}.

Definition tx_high : Transaction :=
  mkTransaction "tx4" TypeDeposit (20000 # 1) "USD" "" "a2" "" StatusPending
    noon 0 (Some risky_metadata) 0 [].

Definition tx_mid : Transaction :=
  mkTransaction "tx5" TypeDeposit (20000 # 1) "USD" "" "a2" "" StatusPending
    noon 0 (Some {[ "location" := "high_risk_country" ]}) 0 [].

Definition action_of_type (type : string) : RuleAction :=
  mkRuleAction type (Some {[ "reason" := VString "manual review" ]}) "".

Definition tx_nil_metadata : Transaction := tx_transfer.

Definition rule_bad_regexp : Rule :=
  mkRule "r1" "currency_pattern" "fraud" ""
    sample.cond_currency_bad_regexp sample.action_not_json 10 true 1.

Definition rule_in_list : Rule :=
  mkRule "r2" "currency_list" "fraud" ""
    sample.cond_currency_in sample.action_flag 5 true 1.

Definition rule_high_amount : Rule :=
  mkRule "r3" "high_amount" "fraud" ""
    sample.cond_amount_gt_1000 sample.action_flag 1 true 1.

Definition world_rules (rules : list Rule) : World :=
  mkWorld (fun _ => noon) 0 ∅ ∅ ∅ ∅ ∅ ∅
    {[ "active" := rules ]} [] ∅.

(** A world whose rule repository holds [rules] and whose cache is
    empty. *)
Definition world_rule_repo (rules : list Rule) : World :=
  mkWorld (fun _ => noon) 0 ∅ ∅ ∅ ∅
    (list_to_map ((fun rule => (rule_ID rule, rule)) <$> rules)) ∅ ∅ [] ∅.

Definition tx_amount (amount : Q) : Transaction :=
  mkTransaction "tx1" "" amount "" "" "" "" "" 0 0 None 0 [].

Definition tx_deposit : Transaction :=
  mkTransaction "tx1" TypeDeposit (150 # 1) "USD" "" "a1" "" "" noon 0 None 0 [].


(** A world with one account object that no repository holds yet. *)
Definition world_unsaved : World :=
  mkWorld (fun _ => noon) 0 {[ 0%nat := acct_a1 ]} ∅ ∅ ∅ ∅ ∅ ∅ [] ∅.

Definition request_deposit : api.CreateTransactionRequest :=
  api.mkCreateTransactionRequest TypeDeposit (150 # 1) "USD" "" "a1" "" [] "".

(** The worlds between the stages of [ProcessTransaction] on [tx]. *)
Definition validated (tx : Transaction) : World :=
  (validator.ValidateTransaction tx world0).2.

Definition analyzed (tx : Transaction) : Z * list string * World :=
  match @processor.AnalyzeTransaction sample_lib
          (@processor.NewFraudDetector sample_lib) tx (validated tx) with
  | (Ok (riskScore, flags), w) => (riskScore, flags, w)
  | (_, w) => (0, [], w)
  end.



Definition processed (tx : Transaction)
  : result unit * (Transaction * World) :=
  @processor.ProcessTransaction sample_lib
    (@processor.NewFraudDetector sample_lib) (tx, world0).

(** * Properties *)

(** ** The sample calendar *)

Example days_from_civil_2024_03_15 : sample.days_from_civil 2024 3 15 = 19797.
Proof. reflexivity. Qed.

Example civil_from_days_19797 : sample.civil_from_days 19797 = (2024, 3, 15).
Proof. reflexivity. Qed.

(** ** Validator *)

Lemma ValidateTransaction_seen tx w :
  ID tx ∈ w_seen w ->
  validator.ValidateTransaction tx w
  = (Err ErrDuplicateTransaction, set_ticks (S (w_ticks w)) w).
Proof.
  intros Hin. unfold validator.ValidateTransaction.
  unfold mbind, M_bind, bind, time_Now, gets. simpl.
  rewrite bool_decide_eq_true_2; done.
Qed.

Lemma ValidateTransaction_fresh tx w :
  ID tx ∉ w_seen w ->
  validator.ValidateTransaction tx w
  = (match violations tx (w_clock w (w_ticks w)) with
     | [] => Ok tt
     | errs => Err (ErrAggregate "validation errors" errs)
     end,
     set_seen ({[ ID tx ]} ∪ w_seen w) (set_ticks (S (w_ticks w)) w)).
Proof.
  intros Hin. unfold validator.ValidateTransaction, violations.
  unfold mbind, M_bind, bind, time_Now, gets, modify. simpl.
  rewrite bool_decide_eq_false_2 by done.
  destruct (_ ++ validator.check_date _ _); done.
Qed.

Lemma ValidateTransaction_step tx w :
  w_seen (validator.ValidateTransaction tx w).2 = {[ ID tx ]} ∪ w_seen w
  /\ ((validator.ValidateTransaction tx w).1 = Err ErrDuplicateTransaction
      <-> ID tx ∈ w_seen w).
Proof.
  destruct (decide (ID tx ∈ w_seen w)) as [Hin|Hout].
  - rewrite ValidateTransaction_seen by done. simpl. split; [set_solver|done].
  - rewrite ValidateTransaction_fresh by done. simpl. split; [done|].
    split; [|done]. by destruct (violations _ _).
Qed.

Lemma validate_all_cons tx txs w :
  validate_all (tx :: txs) w
  = ((validator.ValidateTransaction tx w).1
       :: (validate_all txs (validator.ValidateTransaction tx w).2).1,
     (validate_all txs (validator.ValidateTransaction tx w).2).2).
Proof.
  simpl. destruct (validator.ValidateTransaction tx w) as [r w1]. simpl.
  by destruct (validate_all txs w1).
Qed.

Lemma validate_all_seen txs w :
  w_seen (validate_all txs w).2 = list_to_set (ID <$> txs) ∪ w_seen w.
Proof.
  revert w. induction txs as [|tx txs IH]; intros w.
  - simpl. set_solver.
  - rewrite validate_all_cons. simpl. rewrite IH.
    destruct (ValidateTransaction_step tx w) as [-> _]. set_solver.
Qed.

(** C4. Duplicate detection over any run of calls on one validator: the
    call on a transaction returns the duplicate error exactly when its
    identifier was seen before the run or belongs to an earlier call of the
    run, so a first call never does and every later one does; the
    identifier of every call ends up recorded, whatever else was wrong with
    the transaction; and a call answered with the duplicate error leaves
    the validator as it found it (only the clock has been read). *)
Theorem ValidateTransaction_duplicates (txs : list Transaction) (w : World) :
  length (validate_all txs w).1 = length txs
  /\ w_seen (validate_all txs w).2 = list_to_set (ID <$> txs) ∪ w_seen w
  /\ (forall i tx, txs !! i = Some tx ->
        ((validate_all txs w).1 !! i = Some (Err ErrDuplicateTransaction)
         <-> ID tx ∈ w_seen w \/ ID tx ∈ ID <$> take i txs))
  /\ (forall tx w0, ID tx ∈ w_seen w0 ->
        validator.ValidateTransaction tx w0
        = (Err ErrDuplicateTransaction, set_ticks (S (w_ticks w0)) w0)).
Proof.
  split; [|split; [apply validate_all_seen|split; [|apply ValidateTransaction_seen]]].
  - revert w. induction txs as [|tx txs IH]; intros w; [done|].
    rewrite validate_all_cons. simpl. by rewrite IH.
  - revert w. induction txs as [|tx0 txs IH]; intros w i tx Hi; [done|].
    rewrite validate_all_cons. simpl.
    destruct (ValidateTransaction_step tx0 w) as [Hseen Hdup].
    destruct i as [|i]; simpl in *.
    + injection Hi as ->. split.
      * intros [= H%Hdup]. by left.
      * intros [H|H]; [|set_solver]. f_equal. by apply Hdup.
    + rewrite (IH _ i tx Hi), Hseen. set_solver.
Qed.

(** C5, as the code has it. A call that fails with the aggregated validation
    error has recorded the transaction's identifier (and read the clock
    once); nothing else of the world changes. A later call with the same
    identifier is therefore answered with the duplicate error, and a
    transaction without violations passes under an identifier that has not
    been seen. *)
Theorem ValidateTransaction_failure_records_id
    (tx : Transaction) (w : World) (msg : string) (errs : list error) :
  (validator.ValidateTransaction tx w).1 = Err (ErrAggregate msg errs) ->
  let w1 := (validator.ValidateTransaction tx w).2 in
  w1 = set_seen ({[ ID tx ]} ∪ w_seen w) (set_ticks (S (w_ticks w)) w)
  /\ (ID tx ∉ w_seen w)
  /\ ID tx ∈ w_seen w1
  /\ (forall tx', ID tx' = ID tx ->
        (validator.ValidateTransaction tx' w1).1 = Err ErrDuplicateTransaction)
  /\ (forall tx', ID tx' ∉ w_seen w1 ->
        violations tx' (w_clock w1 (w_ticks w1)) = [] ->
        (validator.ValidateTransaction tx' w1).1 = Ok tt).
Proof.
  intros Hfail w1. subst w1.
  assert (Hout : ID tx ∉ w_seen w).
  { intros Hin. rewrite ValidateTransaction_seen in Hfail by done. done. }
  rewrite ValidateTransaction_fresh by done. simpl.
  repeat split; [done|set_solver|..].
  - intros tx' Hid. rewrite ValidateTransaction_seen; [done|].
    simpl. rewrite Hid. set_solver.
  - intros tx' Hfresh Hok. rewrite ValidateTransaction_fresh by done.
    simpl in *. by rewrite Hok.
Qed.

Lemma ValidateTransaction_failure_records_id_witness :
  (validator.ValidateTransaction tx_zero_amount world0).1
  = Err (ErrAggregate "validation errors" [ErrInvalidAmount])
  /\ ID tx_zero_amount
     ∈ w_seen (validator.ValidateTransaction tx_zero_amount world0).2.
Proof.
  split; [reflexivity|].
  apply (ValidateTransaction_failure_records_id tx_zero_amount world0
           "validation errors" [ErrInvalidAmount]).
  reflexivity.
Defined.

(** C5 fails as stated: the first call on [tx_zero_amount] fails with the
    aggregated error and changes the validator, and the corrected
    transaction, which has no violation left and keeps the identifier, is
    rejected as a duplicate. *)
Lemma retry_with_same_id_is_duplicate :
  (validator.ValidateTransaction tx_zero_amount world0).1
  = Err (ErrAggregate "validation errors" [ErrInvalidAmount])
  /\ (w_seen (validator.ValidateTransaction tx_zero_amount world0).2
      <> w_seen world0)
  /\ ID tx_corrected = ID tx_zero_amount
  /\ (forall now, noon - 5 * Minute <= now -> violations tx_corrected now = [])
  /\ (validator.ValidateTransaction tx_corrected
        (validator.ValidateTransaction tx_zero_amount world0).2).1
     = Err ErrDuplicateTransaction.
Proof.
  split; [reflexivity|]. split.
  { rewrite ValidateTransaction_fresh by (simpl; set_solver). simpl.
    intros H. assert (Hin : "tx2" ∈ ({["tx2"]} ∪ ∅ : gset string)) by set_solver.
    rewrite H in Hin. set_solver. }
  split; [reflexivity|]. split.
  { intros now Hnow. unfold violations, validator.check_date, time_After, time_Add.
    simpl. destruct (Z.ltb_spec (now + 5 * Minute) noon); [lia|done]. }
  rewrite ValidateTransaction_seen; [done|].
  rewrite ValidateTransaction_fresh by (simpl; set_solver). simpl. set_solver.
Qed.

(** ** Fraud detector *)

Section fraud_detector.

Context `{!GoLib}.

Lemma late_night_hour t :
  (23 <=? time_Hour t) || (time_Hour t <=? 5) = late_night (time_Hour t).
Proof.
  pose proof (time_Hour_range t). unfold late_night.
  destruct (Z.leb_spec 23 (time_Hour t)), (Z.eqb_spec (time_Hour t) 23),
    (Z.leb_spec 0 (time_Hour t)), (Z.leb_spec (time_Hour t) 5);
    simpl; try reflexivity; lia.
Qed.

Lemma analyze_patterns_cons pattern ps tx riskScore flags w b flag w' :
  processor.Detect pattern tx w = (Ok (b, flag), w') ->
  processor.analyze_patterns (pattern :: ps) tx riskScore flags w
  = processor.analyze_patterns ps tx
      (riskScore + weight_if b (processor.Weight pattern))
      (flags ++ flag_if b flag) w'.
Proof.
  intros Hd. simpl. unfold mbind, M_bind, bind. rewrite Hd.
  destruct b; simpl; [done|]. by rewrite Z.add_0_r, app_nil_r.
Qed.

Lemma detectFrequentTransactions_eq tx w :
  processor.detectFrequentTransactions tx w
  = (Ok (frequent_transactions tx (time_Hour (w_clock w (w_ticks w))),
         "frequent_transactions"),
     set_ticks (w_ticks w + detector_reads tx)%nat w).
Proof.
  unfold processor.detectFrequentTransactions, frequent_transactions,
    detector_reads.
  destruct (Qgtb (Amount tx) (5000 # 1)); simpl.
  - unfold mbind, M_bind, bind, time_Now. simpl.
    by replace (w_ticks w + 1)%nat with (S (w_ticks w)) by lia.
  - unfold ret. destruct w. unfold set_ticks. simpl. by rewrite Nat.add_0_r.
Qed.

Lemma detectGeographicalAnomaly_eq tx w :
  exists flag,
    processor.detectGeographicalAnomaly tx w
    = (Ok (geographical_anomaly tx, flag), w)
    /\ flag_if (geographical_anomaly tx) flag
       = flag_if (geographical_anomaly tx) "geographical_anomaly".
Proof.
  unfold processor.detectGeographicalAnomaly, geographical_anomaly.
  destruct (metadata_get tx "location") as [location|]; simpl.
  - exists "geographical_anomaly". split; [|done]. unfold ret. do 3 f_equal.
    destruct (String.eqb_spec location "high_risk_country") as [->|Hne].
    + by rewrite bool_decide_eq_true_2.
    + rewrite bool_decide_eq_false_2; [done|congruence].
  - by exists "".
Qed.

Lemma detectVelocityAnomaly_eq tx w :
  exists flag,
    processor.detectVelocityAnomaly tx w = (Ok (velocity_check tx, flag), w)
    /\ flag_if (velocity_check tx) flag
       = flag_if (velocity_check tx) "velocity_anomaly".
Proof.
  unfold processor.detectVelocityAnomaly, velocity_check.
  destruct (metadata_get tx "velocity") as [velocity|]; simpl.
  - destruct (String.eqb_spec velocity "high") as [->|Hne].
    + exists "velocity_anomaly". by rewrite bool_decide_eq_true_2.
    + exists "". rewrite bool_decide_eq_false_2; [done|congruence].
  - by exists "".
Qed.

Lemma detector_sum_bounds tx hour :
  0 <= detector_sum tx hour <= 130.
Proof.
  unfold detector_sum, weight_if.
  destruct (large_amount tx), (frequent_transactions tx hour),
    (geographical_anomaly tx), (velocity_check tx); lia.
Qed.

Lemma AnalyzeTransaction_eq (tx : Transaction) (w : World) :
  let hour1 := time_Hour (w_clock w (w_ticks w)) in
  let hour2 := time_Hour (w_clock w (w_ticks w + detector_reads tx)%nat) in
  let sum := detector_sum tx hour1 in
  processor.AnalyzeTransaction processor.NewFraudDetector tx w
  = (Ok (Z.min (sum + surcharge sum hour2) 100, detector_flags tx hour1),
     set_ticks (w_ticks w + detector_reads tx + surcharge_reads sum)%nat w).
Proof.
  intros hour1 hour2 sum.
  destruct (detectGeographicalAnomaly_eq tx
              (set_ticks (w_ticks w + detector_reads tx)%nat w))
    as (flag3 & Hgeo & Hflag3).
  destruct (detectVelocityAnomaly_eq tx
              (set_ticks (w_ticks w + detector_reads tx)%nat w))
    as (flag4 & Hvel & Hflag4).
  unfold processor.AnalyzeTransaction, processor.NewFraudDetector.
  cbn [processor.patterns]. unfold mbind at 1, M_bind at 1, bind at 1.
  erewrite analyze_patterns_cons by reflexivity.
  erewrite analyze_patterns_cons by apply detectFrequentTransactions_eq.
  erewrite analyze_patterns_cons by exact Hgeo.
  erewrite analyze_patterns_cons by exact Hvel.
  cbn [processor.analyze_patterns processor.Weight app].
  rewrite Hflag3, Hflag4. fold hour1.
  change (0 + weight_if (Qgtb (Amount tx) (10000 # 1)) 30) with
    (weight_if (large_amount tx) 30).
  fold (detector_sum tx hour1). fold sum.
  change (flag_if (Qgtb (Amount tx) (10000 # 1)) "large_amount")
    with (flag_if (large_amount tx) "large_amount").
  rewrite <- !app_assoc. fold (detector_flags tx hour1).
  unfold mret, M_ret, ret. unfold mbind, M_bind, bind.
  unfold surcharge, surcharge_reads.
  pose proof (detector_sum_bounds tx hour1) as Hb. fold sum in Hb.
  destruct (Z.ltb_spec 0 sum) as [Hpos|Hzero].
  - unfold processor.applyTimeBasedModifiers, mbind, M_bind, bind, time_Now.
    cbn [w_clock w_ticks set_ticks]. fold hour2.
    unfold hour2 at 1. rewrite late_night_hour. fold hour2.
    destruct (Z.eqb_spec sum 0); [lia|]. simpl negb. cbn [andb].
    replace (S (w_ticks w + detector_reads tx)) with
      (w_ticks w + detector_reads tx + 1)%nat by lia.
    destruct (late_night hour2); unfold ret; cbn; by rewrite ?Z.add_0_r.
  - assert (sum = 0) as -> by lia. simpl.
    by rewrite Nat.add_0_r.
Qed.

(** C6. With the registry of [NewFraudDetector], [AnalyzeTransaction]
    returns the sum of the weights of the triggered detectors (30, 25, 35,
    40), plus 15 when that sum is not zero and the hour read for the
    surcharge lies in 23:00-05:59, clamped to [0,100], with the flags in
    registry order; for an amount of 20,000 the flags include
    ["large_amount"] and the score is at least 30.  The detector and the
    surcharge each read the clock themselves: [hour1] and [hour2] are the
    hours of these two reads. *)
Theorem AnalyzeTransaction_score (tx : Transaction) (w : World) :
  let hour1 := time_Hour (w_clock w (w_ticks w)) in
  let hour2 := time_Hour (w_clock w (w_ticks w + detector_reads tx)%nat) in
  let sum := detector_sum tx hour1 in
  let score := clamp 0 100 (sum + surcharge sum hour2) in
  (processor.AnalyzeTransaction processor.NewFraudDetector tx w).1
  = Ok (score, detector_flags tx hour1)
  /\ 0 <= score <= 100
  /\ ((Amount tx == 20000 # 1)%Q ->
      In "large_amount" (detector_flags tx hour1) /\ 30 <= score).
Proof.
  intros hour1 hour2 sum score.
  pose proof (detector_sum_bounds tx hour1) as Hb. fold sum in Hb.
  assert (Hs : 0 <= surcharge sum hour2 <= 15).
  { unfold surcharge. destruct (_ && _); lia. }
  assert (Hscore : score = Z.min (sum + surcharge sum hour2) 100).
  { unfold score, clamp. lia. }
  split; [|split].
  - rewrite AnalyzeTransaction_eq. simpl. by rewrite Hscore.
  - lia.
  - intros Hamount.
    assert (Hlarge : large_amount tx = true).
    { unfold large_amount, Qgtb, Qltb. rewrite Hamount. reflexivity. }
    split.
    + unfold detector_flags. rewrite Hlarge. simpl. by left.
    + assert (30 <= sum); [|lia].
      unfold sum, detector_sum, weight_if. rewrite Hlarge.
      destruct (frequent_transactions tx hour1), (geographical_anomaly tx),
        (velocity_check tx); lia.
Qed.

End fraud_detector.

Lemma AnalyzeTransaction_score_witness :
  (Amount tx_large == 20000 # 1)%Q
  /\ (@processor.AnalyzeTransaction sample_lib
        (@processor.NewFraudDetector sample_lib) tx_large world_night).1
     = Ok (70, ["large_amount"; "frequent_transactions"]).
Proof.
  split; [reflexivity|].
  exact (proj1 (@AnalyzeTransaction_score sample_lib tx_large world_night)).
Defined.

(** ** Rule actions *)

(** C10. On a transaction whose metadata map is nil, [block_transaction]
    and [require_approval] panic at the write to the map (the status has
    been assigned by then) instead of returning an error, while
    [flag_transaction] creates the map first: on every transaction it
    returns no error and leaves the reason under ["flagged_reason"]. *)
Theorem ExecuteAction_nil_metadata (action : RuleAction) (tx : Transaction) :
  (Metadata tx = None ->
   (ra_Type action = "block_transaction" ->
    processor.ExecuteAction action tx
    = (Panic "assignment to entry in nil map", set_Status StatusFailed tx))
   /\ (ra_Type action = "require_approval" ->
       processor.ExecuteAction action tx
       = (Panic "assignment to entry in nil map", set_Status StatusPending tx)))
  /\ (ra_Type action = "flag_transaction" ->
      processor.ExecuteAction action tx
      = (Ok tt,
         set_Metadata
           (Some (<["flagged_reason" := processor.param_string action "reason"]>
                    (default ∅ (Metadata tx))))
           tx)).
Proof.
  unfold processor.ExecuteAction. split; [intros Hnil; split|]; intros ->; simpl.
  - unfold processor.handleBlockAction, mbind, M_bind, bind, modify,
      processor.metadata_set. simpl. by rewrite Hnil.
  - unfold processor.handleApprovalAction, mbind, M_bind, bind, modify,
      processor.metadata_set. simpl. by rewrite Hnil.
  - unfold processor.handleFlagAction, mbind, M_bind, bind, modify, get,
      processor.metadata_set.
    destruct tx as [? ? ? ? ? ? ? ? ? ? [m|] ? ?]; reflexivity.
Qed.

Lemma ExecuteAction_nil_metadata_witness :
  Metadata tx_nil_metadata = None
  /\ (processor.ExecuteAction (action_of_type "block_transaction")
        tx_nil_metadata).1
     = Panic "assignment to entry in nil map"
  /\ (processor.ExecuteAction (action_of_type "require_approval")
        tx_nil_metadata).1
     = Panic "assignment to entry in nil map"
  /\ (processor.ExecuteAction (action_of_type "flag_transaction")
        tx_nil_metadata).1
     = Ok tt.
Proof.
  pose proof (ExecuteAction_nil_metadata (action_of_type "block_transaction")
                tx_nil_metadata) as [Hb _].
  pose proof (ExecuteAction_nil_metadata (action_of_type "require_approval")
                tx_nil_metadata) as [Ha _].
  pose proof (ExecuteAction_nil_metadata (action_of_type "flag_transaction")
                tx_nil_metadata) as [_ Hf].
  split; [reflexivity|].
  rewrite (proj1 (Hb eq_refl) eq_refl), (proj2 (Ha eq_refl) eq_refl),
    (Hf eq_refl).
  repeat split.
Defined.

(** ** Rule engine *)

Section rule_engine.

Context `{!GoLib}.

Lemma evaluate_rules_app rules tx results :
  (forall rule msg, In rule rules -> processor.evaluateRule rule tx <> Panic msg) ->
  processor.evaluate_rules rules tx results
  = Ok (results ++ flat_map (fun rule => rule_results rule tx) rules).
Proof.
  revert results. induction rules as [|rule rules IH]; intros results Hnp.
  - simpl. by rewrite app_nil_r.
  - simpl. unfold rule_results at 1.
    pose proof (Hnp rule) as Hrule.
    destruct (processor.evaluateRule rule tx) as [result|e|msg].
    + destruct (Triggered result); rewrite IH by (intros; apply Hnp; by right).
      * by rewrite <- app_assoc.
      * done.
    + rewrite IH by (intros; apply Hnp; by right). done.
    + exfalso. apply (Hrule msg); [by left|done].
Qed.

Lemma evaluate_rules_panic rules tx results rule msg :
  In rule rules ->
  processor.evaluateRule rule tx = Panic msg ->
  exists msg', processor.evaluate_rules rules tx results = Panic msg'.
Proof.
  revert results. induction rules as [|rule0 rules IH]; intros results Hin Hp.
  - destruct Hin.
  - simpl. destruct Hin as [->|Hin].
    + rewrite Hp. eauto.
    + destruct (processor.evaluateRule rule0 tx) as [result|e|msg0]; [| |eauto].
      * destruct (Triggered result); eauto.
      * eauto.
Qed.


(** Rules whose evaluation returns an error are skipped: when no rule
    panics, [EvaluateRules] returns, without error, a reordering of the
    triggered results of the rules that evaluate. *)
Lemma EvaluateRules_skips_errors tx w rules w1 :
  processor.getActiveRules w = (Ok rules, w1) ->
  (forall rule msg, In rule rules -> processor.evaluateRule rule tx <> Panic msg) ->
  exists results,
    processor.EvaluateRules tx w = (Ok results, w1)
    /\ Permutation results (flat_map (fun rule => rule_results rule tx) rules).
Proof.
  intros Hc Hnp. unfold processor.EvaluateRules.
  unfold mbind at 1, M_bind at 1, bind at 1, try. rewrite Hc.
  unfold mbind, M_bind, bind, processor.lift_result, get.
  rewrite evaluate_rules_app by done. simpl.
  eexists. split; [reflexivity|]. apply slices_SortFunc_perm.
Qed.

(** A condition that fails to decode, or names an unknown field, makes
    [evaluateRule] return an error. *)
Lemma evaluateRule_parse_error rule tx :
  json_Unmarshal_Condition (domain.Condition rule) = None ->
  exists e, processor.evaluateRule rule tx = Err e.
Proof.
  intros Hp. unfold processor.evaluateRule, processor.parseCondition.
  rewrite Hp. eauto.
Qed.

Lemma evaluateRule_check_error rule condition tx e :
  json_Unmarshal_Condition (domain.Condition rule) = Some condition ->
  processor.checkCondition condition tx = Err e ->
  exists e', processor.evaluateRule rule tx = Err e'.
Proof.
  intros Hp Hc. unfold processor.evaluateRule, processor.parseCondition.
  rewrite Hp, Hc. eauto.
Qed.

(** So does a field that [checkCondition] does not know, and an operator
    that is not one of those of the field. *)
Lemma checkCondition_unknown_field condition tx :
  Field condition ∉ ["amount"; "currency"; "type"; "risk_score"; "metadata"] ->
  exists e, processor.checkCondition condition tx = Err e.
Proof.
  intros Hf. unfold processor.checkCondition.
  repeat match goal with
         | |- context [String.eqb ?a ?b] =>
             destruct (String.eqb_spec a b) as [Heq|_];
             [exfalso; apply Hf; rewrite Heq; set_solver|]
         end.
  eauto.
Qed.

Lemma compare_float64_unknown_operator operator value targetValue :
  operator ∉ [">"; ">="; "<"; "<="; "=="; "!="] ->
  exists e, processor.compare_float64 operator value targetValue = Err e.
Proof.
  intros Ho. unfold processor.compare_float64.
  repeat match goal with
         | |- context [String.eqb ?a ?b] =>
             destruct (String.eqb_spec a b) as [Heq|_];
             [exfalso; apply Ho; rewrite Heq; set_solver|]
         end.
  eauto.
Qed.

Lemma checkCondition_unknown_operator condition tx :
  (Field condition ∈ ["amount"; "risk_score"]
   /\ Operator condition ∉ [">"; ">="; "<"; "<="; "=="; "!="])
  \/ (Field condition ∈ ["currency"; "type"]
      /\ Operator condition ∉ ["=="; "!="; "contains"; "in"]) ->
  exists e, processor.checkCondition condition tx = Err e.
Proof.
  unfold processor.checkCondition. intros [[Hf Ho]|[Hf Ho]].
  - assert (Field condition = "amount" \/ Field condition = "risk_score")
      as [-> | ->] by set_solver; simpl;
      unfold processor.checkAmountCondition, processor.checkNumericCondition;
      destruct (Value condition); eauto;
      by apply compare_float64_unknown_operator.
  - assert (Hs : forall value,
              exists e, processor.checkStringCondition condition value = Err e).
    { intros value. unfold processor.checkStringCondition.
      destruct (Value condition); eauto.
      repeat match goal with
             | |- context [String.eqb ?a ?b] =>
                 destruct (String.eqb_spec a b) as [Heq|_];
                 [exfalso; apply Ho; rewrite Heq; set_solver|]
             end.
      eauto. }
    assert (Field condition = "currency" \/ Field condition = "type")
      as [-> | ->] by set_solver; simpl; apply Hs.
Qed.

(** C8 on the code. For the fields [currency] and [type], a condition with
    the operator ["in"] returns an error whatever its value is: a list
    fails the assertion to [string] that precedes the dispatch on the
    operator, and a string fails the assertion to [[]string] under
    ["in"]. The rule is then skipped, so it never triggers. *)
Theorem checkCondition_in_is_error
    (field : string) (value : GoValue) (tx : Transaction) :
  field = "currency" \/ field = "type" ->
  exists e,
    processor.checkCondition (mkCondition field "in" value) tx = Err e.
Proof.
  intros [-> | ->]; unfold processor.checkCondition,
    processor.checkStringCondition; simpl; destruct value; simpl; eauto.
Qed.

(** C7 on the code. A rule whose condition is [contains] on [currency] or
    [type] with a pattern that does not compile makes [EvaluateRules]
    panic, wherever it stands in the list of active rules (cached, or just
    fetched from the repository): [regexp.MustCompile] panics and nothing
    recovers, so the rules after it are not evaluated and no result is
    returned. *)
Theorem EvaluateRules_bad_pattern_panics
    (rule : Rule) (field pattern : string) (rules : list Rule)
    (tx : Transaction) (w w1 : World) :
  json_Unmarshal_Condition (domain.Condition rule)
  = Some (mkCondition field "contains" (VString pattern)) ->
  field = "currency" \/ field = "type" ->
  regexp_Compile pattern = None ->
  processor.getActiveRules w = (Ok rules, w1) ->
  In rule rules ->
  exists msg, processor.EvaluateRules tx w = (Panic msg, w1).
Proof.
  intros Hcond Hfield Hre Hc Hin.
  assert (Hp : exists msg, processor.evaluateRule rule tx = Panic msg).
  { unfold processor.evaluateRule, processor.parseCondition. rewrite Hcond.
    unfold processor.checkCondition, processor.checkStringCondition.
    destruct Hfield as [-> | ->]; simpl; rewrite Hre; eauto. }
  destruct Hp as [msg Hp].
  destruct (evaluate_rules_panic rules tx [] rule msg Hin Hp) as [msg' Hl].
  exists msg'. unfold processor.EvaluateRules.
  unfold mbind at 1, M_bind at 1, bind at 1, try. rewrite Hc.
  unfold mbind, M_bind, bind, processor.lift_result. by rewrite Hl.
Qed.

End rule_engine.

Lemma checkCondition_in_is_error_witness :
  sample.decode_Condition (domain.Condition rule_in_list)
  = Some (mkCondition "currency" "in" (VSlice [VString "USD"; VString "EUR"]))
  /\ Currency tx_transfer = "USD"
  /\ exists e,
       @processor.checkCondition sample_lib
         (mkCondition "currency" "in" (VSlice [VString "USD"; VString "EUR"]))
         tx_transfer
       = Err e.
Proof.
  split; [reflexivity|]. split; [reflexivity|].
  apply (@checkCondition_in_is_error sample_lib). by left.
Defined.

Lemma EvaluateRules_bad_pattern_panics_witness :
  exists msg,
    (@processor.EvaluateRules sample_lib tx_transfer
       (world_rule_repo [rule_high_amount; rule_bad_regexp; rule_in_list])).1
    = Panic msg.
Proof.
  destruct (@EvaluateRules_bad_pattern_panics sample_lib rule_bad_regexp
              "currency" "("
              [rule_bad_regexp; rule_in_list; rule_high_amount] tx_transfer
              (world_rule_repo [rule_high_amount; rule_bad_regexp; rule_in_list])
              (@processor.getActiveRules sample_lib
                 (world_rule_repo
                    [rule_high_amount; rule_bad_regexp; rule_in_list])).2)
    as [msg Hmsg].
  - reflexivity.
  - by left.
  - reflexivity.
  - vm_compute. reflexivity.
  - simpl. tauto.
  - exists msg. by rewrite Hmsg.
Defined.

(** Without the rule that panics, the rule with the ["in"] condition is
    skipped although the currency of the transaction is in its list, and
    the amount rule does not trigger for 200. *)
Example EvaluateRules_in_rule_skipped :
  (@processor.EvaluateRules sample_lib tx_transfer
     (world_rules [rule_high_amount; rule_in_list])).1
  = Ok [].
Proof. reflexivity. Qed.

(** ** Ledger operations and the pipeline *)

Lemma bind_Ok {S A B} (m : M S A) (k : A -> M S B) s a s' :
  m s = (Ok a, s') -> (m ≫= k) s = k a s'.
Proof. intros Hm. unfold mbind, M_bind, bind. by rewrite Hm. Qed.



Lemma GetByID_Ok w id account :
  w_accounts w !! id = Some account ->
  memory.AccountRepository_GetByID id w = (Ok account, w).
Proof.
  intros Hid. unfold memory.AccountRepository_GetByID, mbind, M_bind, bind, gets.
  by rewrite Hid.
Qed.

Lemma load_Ok w p a :
  w_heap w !! p = Some a -> load p w = (Ok a, w).
Proof. intros Hp. unfold load. by rewrite Hp. Qed.


Section ledger.

Context `{!GoLib}.





Lemma same_ledger_refl w : same_ledger w w.
Proof. by repeat split. Qed.




Lemma getActiveRules_frame w :
  same_ledger w (processor.getActiveRules w).2
  /\ exists rules, (processor.getActiveRules w).1 = Ok rules.
Proof.
  unfold processor.getActiveRules, mbind, M_bind, bind, gets.
  destruct (w_cache w !! "active"); simpl; split; eauto; by repeat split.
Qed.








Lemma update_Ok w p a f :
  w_heap w !! p = Some a ->
  update p f w = (Ok tt, set_heap (<[p := f a]> (w_heap w)) w).
Proof.
  intros Hp. unfold update. by erewrite bind_Ok by (apply load_Ok, Hp).
Qed.





End ledger.


Example analyzed_tx_high :
  (analyzed tx_high).1
  = (100, ["large_amount"; "geographical_anomaly"; "velocity_anomaly"]).
Proof. vm_compute. reflexivity. Qed.

Example analyzed_tx_mid :
  (analyzed tx_mid).1 = (65, ["large_amount"; "geographical_anomaly"]).
Proof. vm_compute. reflexivity. Qed.




(** ** The tests of the repository, run on the model *)

(** TestTransactionValidator_ValidTransaction, _InvalidAmount,
    _InvalidCurrencyFormat, _FutureTimestamp and _ExceedsLimit. *)
Example test_validator :
  (validator.ValidateTransaction tx_corrected world0).1 = Ok tt
  /\ (validator.ValidateTransaction tx_zero_amount world0).1
     = Err (ErrAggregate "validation errors" [ErrInvalidAmount])
  /\ (validator.ValidateTransaction
        (mkTransaction "tx4" TypeDeposit (50 # 1) "US" "" "A2" "" "" noon 0
           None 0 [])
        world0).1
     = Err (ErrAggregate "validation errors" [ErrInvalidCurrency])
  /\ (validator.ValidateTransaction
        (mkTransaction "tx6" TypeDeposit (10 # 1) "USD" "" "A2" "" ""
           (noon + 48 * Hour) 0 None 0 [])
        world0).1
     = Err (ErrAggregate "validation errors" [validator.ErrFutureDate])
  /\ validator.ValidateAmount (2000000 # 1) "USD"
     = Err (ErrNew "amount exceeds maximum limit").
Proof. repeat split; vm_compute; reflexivity. Qed.

(** TestTransactionValidator_DuplicateTransaction *)
Example test_validator_duplicate :
  (validate_all [tx_corrected; tx_corrected] world0).1
  = [Ok tt; Err ErrDuplicateTransaction].
Proof. vm_compute. reflexivity. Qed.

(** TestRuleEngine_EvaluateRules_AmountCondition, and the rule of the
    specification: amount > 1000 triggers for 1500 and not for 500. *)
Example test_rule_engine_amount :
  (@processor.EvaluateRules sample_lib (tx_amount (1500 # 1))
     (world_rule_repo [rule_high_amount])).1
  = Ok [mkRuleResult "r3" "high_amount" true
          (mkRuleAction "flag_transaction"
             (Some {[ "reason" := VString "high_amount" ]})
             "High transaction amount")
          ""]
  /\ (@processor.EvaluateRules sample_lib (tx_amount (500 # 1))
        (world_rule_repo [rule_high_amount])).1
     = Ok [].
Proof. split; vm_compute; reflexivity. Qed.

(** TestTransactionProcessor_ProcessTransaction_Deposit *)
Example test_deposit :
  (processed tx_deposit).1 = Ok tt
  /\ Balance <$> w_heap (processed tx_deposit).2.2 !! 0%nat = Some (1150 # 1)%Q
  /\ Status (processed tx_deposit).2.1 = StatusCompleted.
Proof. repeat split; vm_compute; reflexivity. Qed.


(** * Further properties of the code *)

(** ** Validator *)


Lemma is_upper_iff c : validator.is_upper c = true <-> upper_letter c.
Proof.
  unfold validator.is_upper, upper_letter, nat_of_ascii.
  change (N.to_nat (N_of_ascii "A")) with 65%nat.
  change (N.to_nat (N_of_ascii "Z")) with 90%nat.
  rewrite andb_true_iff, !Z.leb_le. lia.
Qed.

Lemma currencyRegex_MatchString_iff s :
  validator.currencyRegex_MatchString s = true
  <-> exists a b c,
        s = String a (String b (String c EmptyString))
        /\ upper_letter a /\ upper_letter b /\ upper_letter c.
Proof.
  split.
  - destruct s as [|a [|b [|c [|]]]]; simpl; try done.
    rewrite !andb_true_iff, !is_upper_iff. intros [[Ha Hb] Hc]. eauto 10.
  - intros (a & b & c & -> & Ha & Hb & Hc). simpl.
    rewrite !andb_true_iff, !is_upper_iff. done.
Qed.

Lemma string_eqb_false_iff (a b : string) : String.eqb a b = false <-> a <> b.
Proof. by destruct (String.eqb_spec a b). Qed.

Lemma violations_nil_iff tx now : violations tx now = [] <-> acceptable tx now.
Proof.
  unfold violations, acceptable.
  rewrite !app_nil. 
  assert (Ha : validator.check_amount tx = [] <-> (0 < Amount tx)%Q).
  { unfold validator.check_amount.
    destruct (Qle_bool (Amount tx) 0) eqn:Hle; split; try done.
    - intros Hlt. apply Qle_bool_iff in Hle. exfalso. by eapply Qlt_not_le.
    - intros _. apply Qnot_le_lt. intros H. apply Qle_bool_iff in H. congruence. }
  assert (Hc : validator.check_currency tx = []
               <-> validator.currencyRegex_MatchString (Currency tx) = true).
  { unfold validator.check_currency.
    by destruct (validator.currencyRegex_MatchString (Currency tx)). }
  assert (Hacc : validator.check_accounts tx = []
                 <-> (Type_ tx = TypeTransfer ->
                      FromAccountID tx <> "" /\ ToAccountID tx <> ""
                      /\ FromAccountID tx <> ToAccountID tx)).
  { unfold validator.check_accounts.
    destruct (String.eqb_spec (Type_ tx) TypeTransfer) as [Ht|Ht];
      [|split; [intros _ H; by destruct Ht|done]].
    destruct (String.eqb_spec (FromAccountID tx) "") as [Hf|Hf],
      (String.eqb_spec (ToAccountID tx) "") as [Hto|Hto],
      (String.eqb_spec (FromAccountID tx) (ToAccountID tx)) as [He|He];
      simpl; split; try done; intros H; destruct (H Ht) as (? & ? & ?); done. }
  assert (Hd : validator.check_date tx now = []
               <-> CreatedAt tx <= now + 5 * Minute).
  { unfold validator.check_date, time_After, time_Add.
    destruct (Z.ltb_spec (now + 5 * Minute) (CreatedAt tx)); split; try done; lia. }
  rewrite Ha, Hc, Hacc, Hd, currencyRegex_MatchString_iff. tauto.
Qed.



(** ** Rule conditions and actions *)

Section rule_conditions.
Context `{!GoLib}.

(** X3. A [metadata] condition never fails on a mapping, whatever its
    operator, which is not consulted: it triggers exactly when every key of
    the mapping is present in the transaction's metadata with a value that
    prints the same.  So the empty mapping triggers on every transaction,
    and a nil metadata map only matches the empty mapping. *)
Theorem checkMetadataCondition_triggers
    (operator : string) (conditions : list (string * GoValue))
    (tx : Transaction) :
  exists triggered,
    processor.checkCondition
      (mkCondition "metadata" operator (VMap conditions)) tx
    = Ok triggered
    /\ (triggered = true
        <-> forall key expected, In (key, expected) conditions ->
              exists actual,
                metadata_get tx key = Some actual
                /\ fmt_Sprint (VString actual) = fmt_Sprint expected).
Proof.
  unfold processor.checkCondition, processor.checkMetadataCondition. simpl.
  eexists. split; [reflexivity|].
  rewrite forallb_forall. split.
  - intros Hall key expected Hin. specialize (Hall _ Hin). simpl in Hall.
    unfold metadata_get.
    destruct (Metadata tx) as [m|]; simpl in *; [|done].
    destruct (m !! key) as [actual|]; [|done].
    exists actual. split; [done|]. by apply String.eqb_eq.
  - intros Hall [key expected] Hin.
    destruct (Hall _ _ Hin) as (actual & Hget & Heq).
    unfold metadata_get in Hget.
    destruct (Metadata tx) as [m|]; simpl in *; [|done].
    rewrite Hget. by apply String.eqb_eq.
Qed.

End rule_conditions.



(** X5. Whatever the action and however it ends (result, error or panic),
    [ExecuteAction] leaves the request part of the transaction alone apart
    from its metadata: it writes only the status, the metadata and the risk
    score.  An action of an unknown type is an error that changes
    nothing. *)
Theorem ExecuteAction_frame (action : RuleAction) (tx : Transaction) :
  let tx' := (processor.ExecuteAction action tx).2 in
  (ID tx' = ID tx /\ Type_ tx' = Type_ tx /\ Amount tx' = Amount tx
   /\ Currency tx' = Currency tx /\ FromAccountID tx' = FromAccountID tx
   /\ ToAccountID tx' = ToAccountID tx /\ CreatedAt tx' = CreatedAt tx
   /\ FraudFlags tx' = FraudFlags tx)
  /\ (ra_Type action
      ∉ ["flag_transaction"; "block_transaction"; "require_approval";
         "notify"; "adjust_risk_score"] ->
      processor.ExecuteAction action tx
      = (Err (ErrNew "unknown action type"), tx)).
Proof.
  unfold processor.ExecuteAction. split.
  - repeat match goal with
           | |- context [String.eqb ?a ?b] => destruct (String.eqb a b)
           end;
      unfold processor.handleFlagAction, processor.handleBlockAction,
        processor.handleApprovalAction, processor.handleNotifyAction,
        processor.handleRiskAdjustAction, processor.metadata_set,
        mbind, M_bind, bind, modify, get, mret, M_ret, ret, fail;
      destruct tx as [? ? ? ? ? ? ? ? ? ? [m|] ? ?]; simpl;
      repeat match goal with
             | |- context [if ?b then _ else _] => destruct b; simpl
             end; done.
  - intros Hn.
    repeat match goal with
           | |- context [String.eqb ?a ?b] =>
               destruct (String.eqb_spec a b) as [Heq|_];
               [exfalso; apply Hn; rewrite Heq; set_solver|]
           end.
    reflexivity.
Qed.

(** ** What [ProcessTransaction] leaves alone *)

Lemma preserves_bind {A B} I (m : M (Transaction * World) A)
    (k : A -> M (Transaction * World) B) :
  preserves I m -> (forall a, preserves I (k a)) -> preserves I (m ≫= k).
Proof.
  intros Hm Hk s Hs. unfold mbind, M_bind, bind.
  specialize (Hm s Hs). destruct (m s) as [[a|e|msg] s']; simpl in *; try done.
  by apply Hk.
Qed.

Lemma preserves_try {A} I (m : M (Transaction * World) A) :
  preserves I m -> preserves I (try m).
Proof.
  intros Hm s Hs. unfold try. specialize (Hm s Hs).
  by destruct (m s) as [[a|e|msg] s'].
Qed.

Lemma same_request_refl tx : same_request tx tx.
Proof. by repeat split. Qed.

Section annotations.
Context `{!GoLib}.

Lemma preserves_withTx {A} tx0 (f : Transaction -> M World A) :
  preserves (is_request tx0) (processor.withTx f).
Proof.
  intros [tx w] Hs. unfold processor.withTx. by destruct (f tx w).
Qed.

Lemma preserves_liftW {A} tx0 (m : M World A) :
  preserves (is_request tx0) (processor.liftW m).
Proof.
  intros [tx w] Hs. unfold processor.liftW. by destruct (m w).
Qed.

Lemma preserves_modifyTx tx0 (f : Transaction -> Transaction) :
  (forall tx, same_request tx (f tx)) ->
  preserves (is_request tx0) (processor.modifyTx f).
Proof.
  intros Hf [tx w] Hs. unfold processor.modifyTx, is_request in *. simpl in *.
  destruct Hs as (? & ? & ? & ? & ? & ? & ? & ? & ?).
  destruct (Hf tx) as (? & ? & ? & ? & ? & ? & ? & ? & ?).
  repeat split; congruence.
Qed.

Lemma preserves_txRepo_Save tx0 :
  preserves (is_request tx0) processor.txRepo_Save.
Proof.
  intros [tx w] Hs. unfold processor.txRepo_Save.
  pose proof (fun t => same_request_refl (set_UpdatedAt t tx)) as Hrefl.
  unfold memory.TransactionRepository_Save, mbind, M_bind, bind, gets,
    time_Now, modify, mret, M_ret, ret, fail.
  destruct (w_transactions w !! ID tx); simpl; [done|].
  destruct (negb (FromAccountID tx =? "")%string),
    (negb (ToAccountID tx =? "")%string); simpl; exact Hs.
Qed.

Lemma ProcessTransaction_preserves_request fd tx0 :
  preserves (is_request tx0) (processor.ProcessTransaction fd).
Proof.
  unfold processor.ProcessTransaction.
  apply preserves_bind; [apply preserves_try, preserves_withTx|].
  intros [[]|err]; [|by intros s Hs].
  apply preserves_bind; [apply preserves_withTx|]. intros [riskScore flags].
  apply preserves_bind; [by apply preserves_modifyTx|]. intros _.
  apply preserves_bind; [by apply preserves_modifyTx|]. intros _.
  apply preserves_bind; [apply preserves_try, preserves_withTx|].
  intros [results|err]; [|by intros s Hs].
  apply preserves_bind.
  - destruct (80 <? riskScore); [|destruct (50 <? riskScore)].
    + apply preserves_bind; [by apply preserves_modifyTx|]. intros _.
      apply preserves_bind; [apply preserves_liftW|]. intros now.
      apply preserves_withTx.
    + by apply preserves_modifyTx.
    + apply preserves_bind; [apply preserves_withTx|]. intros _.
      by apply preserves_modifyTx.
  - intros _. apply preserves_bind; [apply preserves_txRepo_Save|].
    intros _. apply preserves_liftW.
Qed.

(** X6. [ProcessTransaction] only annotates: on every path, whatever it
    returns, the transaction keeps its identifier, type, amount, currency,
    accounts, description, creation time and metadata; it writes the risk
    score, the flags, the status and the update time only. *)
Theorem ProcessTransaction_same_request
    (fd : processor.FraudDetector) (tx : Transaction) (w : World) :
  same_request tx (processor.ProcessTransaction fd (tx, w)).2.1.
Proof.
  apply (ProcessTransaction_preserves_request fd tx (tx, w)).
  apply same_request_refl.
Qed.

End annotations.

Lemma request_transaction_metadata `{!GoLib} id now req :
  Metadata (api.request_transaction id now req) <> None.
Proof.
  unfold api.request_transaction.
  set (tx0 := WithAccounts _ _ _).
  assert (H0 : Metadata tx0 <> None) by done.
  revert H0. generalize tx0. clear tx0.
  induction (api.req_Metadata req) as [|[k v] l IH]; intros tx0 H0; [done|].
  simpl. apply IH. unfold AddMetadata. by destruct (Metadata tx0).
Qed.

Lemma ExecuteAction_no_panic action tx msg :
  Metadata tx <> None -> (processor.ExecuteAction action tx).1 <> Panic msg.
Proof.
  intros Hm. unfold processor.ExecuteAction.
  repeat match goal with
         | |- context [String.eqb ?a ?b] => destruct (String.eqb a b)
         end;
    unfold processor.handleFlagAction, processor.handleBlockAction,
      processor.handleApprovalAction, processor.handleNotifyAction,
      processor.handleRiskAdjustAction, processor.metadata_set,
      mbind, M_bind, bind, modify, get, mret, M_ret, ret, fail;
    destruct tx as [? ? ? ? ? ? ? ? ? ? [m|] ? ?]; simpl in *; try done;
    repeat match goal with
           | |- context [if ?b then _ else _] => destruct b; simpl
           end; done.
Qed.

(** X7. A transaction that the API builds from a request has a metadata map,
    and keeps it through [ProcessTransaction]: no rule action panics on it,
    before or after processing. *)
Theorem ExecuteAction_on_request_never_panics `{!GoLib}
    (id : string) (now : Time) (req : api.CreateTransactionRequest)
    (fd : processor.FraudDetector) (w : World) (action : RuleAction)
    (msg : string) :
  let tx := api.request_transaction id now req in
  (processor.ExecuteAction action tx).1 <> Panic msg
  /\ (processor.ExecuteAction action
        (processor.ProcessTransaction fd (tx, w)).2.1).1
     <> Panic msg.
Proof.
  intros tx. split; apply ExecuteAction_no_panic.
  - apply request_transaction_metadata.
  - destruct (ProcessTransaction_preserves_request fd tx (tx, w)
                (same_request_refl tx))
      as (_ & _ & _ & _ & _ & _ & _ & _ & Hm).
    intros Hnone. apply (request_transaction_metadata id now req).
    etransitivity; [symmetry; exact Hm|exact Hnone].
Qed.

(** ** Deposits and withdrawals *)

Ltac world_lookup :=
  cbn [w_heap w_accounts w_ticks w_clock w_transactions w_eventCh
       set_heap set_accounts set_ticks];
  simplify_map_eq; try done.

Section ledger_operations.
Context `{!GoLib}.









(** *** Invariants of the ledger operations *)


























End ledger_operations.

(** The sample ledger is well formed and holds no negative balance. *)
Lemma world0_wf : repo_wf world0.
Proof.
  intros id account Hid. unfold world0 in *. cbn [w_accounts w_heap] in *.
  destruct (decide (id = "a1")) as [->|H1];
    [|destruct (decide (id = "a2")) as [->|H2]]; simplify_map_eq.
  - by exists acct_a1.
  - by exists acct_a2.
Qed.








(** ** What the ledger operations leave alone *)

Lemma untouched_refl w : untouched w w.
Proof. by repeat split. Qed.

Lemma frames_bind {A B} (m : M World A) (k : A -> M World B) :
  frames m -> (forall a, frames (k a)) -> frames (m ≫= k).
Proof.
  intros Hm Hk w w' Hw. unfold mbind, M_bind, bind.
  specialize (Hm w w' Hw). destruct (m w') as [[a|e|msg] w1]; [|done|done].
  by apply Hk.
Qed.

Lemma frames_ret {A} (a : A) : frames (mret a : M World A).
Proof. by intros w w' Hw. Qed.

Lemma frames_fail {A} e : frames (fail e : M World A).
Proof. by intros w w' Hw. Qed.

Lemma frames_gets {A} (f : World -> A) : frames (gets f).
Proof. by intros w w' Hw. Qed.

Lemma frames_try {A} (m : M World A) : frames m -> frames (try m).
Proof.
  intros Hm w w' Hw. unfold try. specialize (Hm w w' Hw).
  by destruct (m w') as [[a|e|msg] w1].
Qed.

Lemma frames_modify (f : World -> World) :
  (forall w, untouched w (f w)) -> frames (modify f).
Proof.
  intros Hf w w' Hw. unfold modify. simpl.
  destruct Hw as (? & ? & ? & ? & ? & ? & ? & ?).
  destruct (Hf w') as (? & ? & ? & ? & ? & ? & ? & ?).
  repeat split; congruence.
Qed.

Lemma frames_time_Now : frames time_Now.
Proof. by intros w w' Hw. Qed.

Lemma frames_load p : frames (load p).
Proof. intros w w' Hw. unfold load. by destruct (w_heap w' !! p). Qed.

Lemma frames_update p f : frames (update p f).
Proof.
  apply frames_bind; [apply frames_load|]. intros a.
  by apply frames_modify.
Qed.

Create HintDb frames.
#[local] Hint Resolve frames_ret frames_fail frames_gets frames_try
  frames_time_Now frames_load frames_update : frames.

Ltac frames_step :=
  first
    [ apply frames_bind; [|intros ?]
    | progress eauto with frames
    | apply frames_modify; intros ?; by repeat split
    | match goal with
      | |- frames (if ?b then _ else _) => destruct b
      | |- frames (match ?x with _ => _ end) => destruct x
      end ].

Section ledger_frame.
Context `{!GoLib}.

Lemma frames_wrap_err {A} msg (m : M World A) :
  frames m -> frames (processor.wrap_err msg m).
Proof. intros Hm. unfold processor.wrap_err. repeat frames_step. Qed.

Lemma frames_GetByID id : frames (memory.AccountRepository_GetByID id).
Proof. unfold memory.AccountRepository_GetByID. repeat frames_step. Qed.

Lemma frames_Update account : frames (memory.AccountRepository_Update account).
Proof. unfold memory.AccountRepository_Update. repeat frames_step. Qed.

Lemma frames_checkAccountLimits account tx :
  frames (processor.checkAccountLimits account tx).
Proof.
  unfold processor.checkAccountLimits,
    memory.TransactionRepository_GetDailyVolume,
    memory.TransactionRepository_GetMonthlyVolume.
  repeat frames_step.
Qed.

Lemma frames_checkWithdrawalLimits account tx :
  frames (processor.checkWithdrawalLimits account tx).
Proof.
  unfold processor.checkWithdrawalLimits, processor.getDailyWithdrawal,
    memory.TransactionRepository_GetByPeriod.
  repeat frames_step.
Qed.

#[local] Hint Resolve frames_wrap_err frames_GetByID frames_Update
  frames_checkAccountLimits frames_checkWithdrawalLimits : frames.

Lemma frames_executeTransaction tx : frames (processor.executeTransaction tx).
Proof.
  unfold processor.executeTransaction, processor.processTransfer,
    processor.processDeposit, processor.processWithdrawal,
    processor.checkDepositLimits.
  repeat frames_step.
Qed.

(** X14. Whatever the transaction and the world, and whatever it returns, a
    ledger operation leaves the stored transactions and their index, the
    rules and the rule cache, the identifiers the validator has seen, the
    events sent and the counters as they are: it writes account objects
    and the account repository only. *)
Theorem executeTransaction_touches_accounts_only
    (tx : Transaction) (w : World) :
  untouched w (processor.executeTransaction tx w).2.
Proof. apply frames_executeTransaction, untouched_refl. Qed.

(** *** What [ProcessTransaction] records *)

Lemma triple_bind {S A B} (P : S -> Prop) (m : M S A) (k : A -> M S B)
    (Q : A -> S -> Prop) (R : B -> S -> Prop) (E : S -> Prop) :
  triple P m Q E -> (forall a, triple (Q a) (k a) R E) ->
  triple P (m ≫= k) R E.
Proof.
  intros Hm Hk s Hs. unfold mbind, M_bind, bind.
  specialize (Hm s Hs). destruct (m s) as [[a|e|msg] s']; [|done|done].
  by apply Hk.
Qed.

Lemma triple_try {S A} (P : S -> Prop) (m : M S A) (I : S -> Prop) :
  triple P m (fun _ => I) I -> triple P (try m) (fun _ => I) I.
Proof.
  intros Hm s Hs. unfold try. specialize (Hm s Hs).
  by destruct (m s) as [[a|e|msg] s'].
Qed.

Lemma preserves_triple {A} (I : Transaction * World -> Prop)
    (m : M (Transaction * World) A) :
  preserves I m -> triple I m (fun _ => I) I.
Proof.
  intros Hm s Hs. specialize (Hm s Hs). by destruct (m s) as [[a|e|msg] s'].
Qed.

Lemma kept_withTx {A} id w (f : Transaction -> M World A) :
  (forall tx w',
     w_transactions (f tx w').2 = w_transactions w'
     /\ w_metrics (f tx w').2 = w_metrics w') ->
  triple (records_kept id w) (processor.withTx f)
    (fun _ => records_kept id w) (records_kept id w).
Proof.
  intros Hf. apply preserves_triple. intros [tx w'] (Hid & Ht & Hm).
  unfold processor.withTx. specialize (Hf tx w').
  destruct (f tx w') as [r w'']. destruct Hf as [Ht' Hm'].
  unfold records_kept. simpl in *. repeat split; congruence.
Qed.

Lemma kept_modifyTx id w (f : Transaction -> Transaction) :
  (forall tx, ID (f tx) = ID tx) ->
  triple (records_kept id w) (processor.modifyTx f)
    (fun _ => records_kept id w) (records_kept id w).
Proof.
  intros Hf. apply preserves_triple. intros [tx w'] (Hid & Ht & Hm).
  unfold processor.modifyTx, records_kept. simpl in *.
  repeat split; try done. by rewrite Hf.
Qed.

Lemma ValidateTransaction_keeps tx w :
  w_transactions (validator.ValidateTransaction tx w).2 = w_transactions w
  /\ w_metrics (validator.ValidateTransaction tx w).2 = w_metrics w.
Proof.
  destruct (decide (ID tx ∈ w_seen w)).
  - by rewrite ValidateTransaction_seen.
  - by rewrite ValidateTransaction_fresh.
Qed.

Lemma AnalyzeTransaction_keeps tx w :
  w_transactions
    (processor.AnalyzeTransaction processor.NewFraudDetector tx w).2
  = w_transactions w
  /\ w_metrics (processor.AnalyzeTransaction processor.NewFraudDetector tx w).2
     = w_metrics w.
Proof. by rewrite AnalyzeTransaction_eq. Qed.

Lemma EvaluateRules_world tx w :
  (processor.EvaluateRules tx w).2 = (processor.getActiveRules w).2.
Proof.
  unfold processor.EvaluateRules.
  unfold mbind at 1, M_bind at 1, bind at 1, try.
  destruct (getActiveRules_frame w) as [_ [rules Hr]].
  destruct (processor.getActiveRules w) as [r w1]. simpl in *. subst r.
  unfold mbind, M_bind, bind, processor.lift_result, get.
  by destruct (processor.evaluate_rules rules tx []).
Qed.

Lemma EvaluateRules_keeps tx w :
  w_transactions (processor.EvaluateRules tx w).2 = w_transactions w
  /\ w_metrics (processor.EvaluateRules tx w).2 = w_metrics w.
Proof.
  rewrite EvaluateRules_world.
  unfold processor.getActiveRules, mbind, M_bind, bind, gets.
  by destruct (w_cache w !! "active").
Qed.

Lemma txRepo_Save_stores id w :
  triple (records_kept id w) processor.txRepo_Save
    (fun _ s => ID s.1 = id /\ w_transactions s.2 !! id = Some s.1
                /\ w_metrics s.2 = w_metrics w)
    (records_kept id w).
Proof.
  intros [tx w'] (Hid & Ht & Hm). simpl in Hid, Ht, Hm.
  unfold processor.txRepo_Save.
  unfold memory.TransactionRepository_Save, mbind, M_bind, bind, gets,
    time_Now, modify, mret, M_ret, ret, fail.
  destruct (w_transactions w' !! ID tx); simpl; [done|].
  destruct (negb (FromAccountID tx =? "")%string),
    (negb (ToAccountID tx =? "")%string); simpl;
    rewrite Hid; by simplify_map_eq.
Qed.

Lemma recordMetric_counts id w :
  triple (fun s => ID s.1 = id /\ w_transactions s.2 !! id = Some s.1
                   /\ w_metrics s.2 = w_metrics w)
    (processor.liftW (processor.recordMetric "transactions_processed" 1))
    (fun _ => recorded id w) (records_kept id w).
Proof.
  intros [tx w'] (Hid & Ht & Hm). simpl in Hid, Ht, Hm.
  unfold processor.liftW, processor.recordMetric, modify, recorded. simpl.
  by rewrite Hm.
Qed.

Lemma ProcessTransaction_triple id w :
  triple (records_kept id w)
    (processor.ProcessTransaction processor.NewFraudDetector)
    (fun _ => recorded id w) (records_kept id w).
Proof.
  unfold processor.ProcessTransaction.
  eapply triple_bind.
  { apply triple_try, kept_withTx. intros. apply ValidateTransaction_keeps. }
  intros [[]|err]; [|by intros s Hs].
  eapply triple_bind.
  { apply kept_withTx. intros. apply AnalyzeTransaction_keeps. }
  intros [riskScore flags].
  eapply triple_bind; [by apply kept_modifyTx|]. intros ?; cbv beta.
  eapply triple_bind; [by apply kept_modifyTx|]. intros ?; cbv beta.
  eapply triple_bind.
  { apply triple_try, kept_withTx. intros. apply EvaluateRules_keeps. }
  intros [results|err]; [|by intros s Hs].
  eapply triple_bind.
  { destruct (80 <? riskScore); [|destruct (50 <? riskScore)].
    - eapply triple_bind; [by apply kept_modifyTx|]. intros ?; cbv beta.
      eapply triple_bind.
      { apply preserves_triple. by intros [tx w'] Hs. }
      intros now. by apply kept_withTx.
    - by apply kept_modifyTx.
    - eapply triple_bind.
      { apply kept_withTx. intros tx w'.
        by destruct (frames_executeTransaction tx w' w' (untouched_refl w'))
          as (? & _ & _ & _ & _ & _ & ? & _). }
      intros ?; cbv beta. by apply kept_modifyTx. }
  intros ?; cbv beta. eapply triple_bind; [apply txRepo_Save_stores|].
  intros ?; cbv beta. apply recordMetric_counts.
Qed.

(** X15. When [ProcessTransaction] returns no error, the transaction as it
    leaves the pipeline is stored under its identifier and the counter
    ["transactions_processed"] is one more than before (and no other
    counter has changed); when it returns an error or panics, nothing has
    been stored and no counter has changed. *)
Theorem ProcessTransaction_records (tx : Transaction) (w : World) :
  let out :=
    processor.ProcessTransaction processor.NewFraudDetector (tx, w) in
  (out.1 = Ok tt ->
   w_transactions out.2.2 !! ID tx = Some out.2.1
   /\ w_metrics out.2.2
      = <["transactions_processed" :=
            default 0 (w_metrics w !! "transactions_processed") + 1]>
          (w_metrics w))
  /\ (out.1 <> Ok tt ->
      w_transactions out.2.2 = w_transactions w
      /\ w_metrics out.2.2 = w_metrics w).
Proof.
  intros out.
  assert (H0 : records_kept (ID tx) w (tx, w)) by done.
  pose proof (ProcessTransaction_triple (ID tx) w (tx, w) H0) as Ht.
  fold out in Ht. destruct out as [[[]|e|msg] s']; simpl; split; try done.
  - intros _. by destruct Ht as (_ & ? & ?).
  - intros _. by destruct Ht as (_ & ? & ?).
  - intros _. by destruct Ht as (_ & ? & ?).
Qed.

End ledger_frame.

(** ** The repositories *)

Section repositories.
Context `{!GoLib}.

Lemma lift_fst_Ok {S T A} (m : M S A) s (t : T) a s' :
  m s = (Ok a, s') -> memory.lift_fst m (s, t) = (Ok a, (s', t)).
Proof. intros Hm. unfold memory.lift_fst. by rewrite Hm. Qed.

(** X16. Saving an account object whose identifier is not in the repository
    returns no error; the object is then found under its identifier, with
    its data unchanged but both time stamps overwritten by the clock; its
    identifier is the last of its user's accounts; a well-formed
    repository stays well formed; and saving the object again is rejected
    as a duplicate, with nothing changed. *)
Theorem AccountRepository_Save_GetByID
    (account : ptr) (a : Account) (w : World)
    (userIndex : gmap string (list string)) :
  w_heap w !! account = Some a ->
  w_accounts w !! acc_ID a = None ->
  exists s',
    memory.AccountRepository_Save account (w, userIndex) = (Ok tt, s')
    /\ memory.AccountRepository_GetByID (acc_ID a) s'.1 = (Ok account, s'.1)
    /\ (exists a', w_heap s'.1 !! account = Some a'
                   /\ same_account_data a a'
                   /\ acc_CreatedAt a' = w_clock w (w_ticks w)
                   /\ LastActivityAt a' = w_clock w (S (w_ticks w)))
    /\ (exists l, (memory.AccountRepository_GetByUserID (acc_UserID a) s').1
                  = Ok (l ++ [account]))
    /\ (repo_wf w -> repo_wf s'.1)
    /\ memory.AccountRepository_Save account s'
       = (Err (ErrWrap "account" ErrDuplicate), s').
Proof.
  intros Hheap Hnone. unfold memory.AccountRepository_Save.
  erewrite bind_Ok by (apply lift_fst_Ok, load_Ok, Hheap).
  erewrite bind_Ok by (apply lift_fst_Ok; reflexivity).
  cbv beta. rewrite Hnone.
  erewrite bind_Ok by (apply lift_fst_Ok; reflexivity).
  erewrite bind_Ok by (apply lift_fst_Ok; eapply update_Ok; world_lookup).
  erewrite bind_Ok by (apply lift_fst_Ok; reflexivity).
  erewrite bind_Ok by (apply lift_fst_Ok; eapply update_Ok; world_lookup).
  erewrite bind_Ok by (apply lift_fst_Ok; reflexivity).
  unfold modify. eexists. split; [reflexivity|].
  cbn [fst snd w_heap w_accounts w_ticks w_clock set_heap set_accounts
       set_ticks].
  split; [by apply GetByID_Ok, lookup_insert_eq|].
  split.
  { eexists. split; [apply lookup_insert_eq|]. by repeat split. }
  split.
  { unfold memory.AccountRepository_GetByUserID.
    rewrite lookup_insert_eq. cbn [fst snd w_accounts set_accounts].
    rewrite omap_app. simpl. rewrite lookup_insert_eq. by eexists. }
  split.
  { intros Hwf id p Hid.
    cbn [w_heap w_accounts set_heap set_accounts set_ticks] in *.
    destruct (decide (id = acc_ID a)) as [->|Hne].
    - rewrite lookup_insert_eq in Hid. injection Hid as <-.
      rewrite lookup_insert_eq. by eexists.
    - rewrite lookup_insert_ne in Hid by done.
      destruct (Hwf _ _ Hid) as (b & Hb & Hidb).
      destruct (decide (p = account)) as [->|Hp].
      + rewrite lookup_insert_eq. eexists. split; [reflexivity|].
        cbn [acc_ID set_LastActivityAt set_acc_CreatedAt]. congruence.
      + rewrite !lookup_insert_ne by done. by exists b. }
  unfold memory.AccountRepository_Save.
  erewrite bind_Ok by (apply lift_fst_Ok, load_Ok; world_lookup).
  erewrite bind_Ok by (apply lift_fst_Ok; reflexivity).
  cbv beta.
  cbn [w_accounts set_accounts acc_ID set_LastActivityAt set_acc_CreatedAt].
  by rewrite lookup_insert_eq.
Qed.

(** X17. Saving a transaction whose identifier is not in the repository returns
    no error and stores it with the update time read from the clock; it is
    then found under its identifier, saving it again is rejected as a
    duplicate, and a later [UpdateStatus] is what [GetByID] shows, with the
    request itself unchanged. The transactions stored under other
    identifiers are as before. *)
Theorem TransactionRepository_Save_GetByID
    (tx : Transaction) (status : string) (w : World) :
  w_transactions w !! ID tx = None ->
  exists w',
    let tx' := set_UpdatedAt (w_clock w (w_ticks w)) tx in
    memory.TransactionRepository_Save tx w = (Ok tx', w')
    /\ memory.TransactionRepository_GetByID (ID tx) w' = (Ok tx', w')
    /\ (memory.TransactionRepository_Save tx w').1
       = Err (ErrWrap "transaction" ErrDuplicate)
    /\ (forall id, id <> ID tx ->
          w_transactions w' !! id = w_transactions w !! id)
    /\ exists tx'' w'',
         memory.TransactionRepository_UpdateStatus (ID tx) status w'
         = (Ok tt, w'')
         /\ memory.TransactionRepository_GetByID (ID tx) w'' = (Ok tx'', w'')
         /\ Status tx'' = status /\ same_request tx tx''.
Proof.
  intros Hnone.
  assert (Hsave : exists w',
    memory.TransactionRepository_Save tx w
    = (Ok (set_UpdatedAt (w_clock w (w_ticks w)) tx), w')
    /\ w_transactions w'
       = <[ID tx := set_UpdatedAt (w_clock w (w_ticks w)) tx]>
           (w_transactions w)).
  { unfold memory.TransactionRepository_Save, mbind, M_bind, bind, gets,
      time_Now, modify, mret, M_ret, ret, fail.
    rewrite Hnone. cbn [ID set_UpdatedAt FromAccountID ToAccountID].
    destruct (negb (FromAccountID tx =? "")%string),
      (negb (ToAccountID tx =? "")%string); eexists; split; reflexivity. }
  destruct Hsave as (w' & Hsave & Htxs). exists w'. cbv zeta.
  split; [exact Hsave|].
  assert (Hget : w_transactions w' !! ID tx
                 = Some (set_UpdatedAt (w_clock w (w_ticks w)) tx)).
  { rewrite Htxs. apply lookup_insert_eq. }
  repeat split.
  - unfold memory.TransactionRepository_GetByID, mbind, M_bind, bind, gets.
    by rewrite Hget.
  - unfold memory.TransactionRepository_Save, mbind, M_bind, bind, gets.
    by rewrite Hget.
  - intros id Hne. rewrite Htxs. by apply lookup_insert_ne.
  - unfold memory.TransactionRepository_UpdateStatus,
      memory.TransactionRepository_GetByID, mbind, M_bind, bind, gets,
      time_Now, modify.
    rewrite Hget. eexists _, _. split; [reflexivity|].
    cbn [w_transactions set_transactions set_ticks].
    rewrite lookup_insert_eq. split; [reflexivity|]. by repeat split.
Qed.

(** X18. [GetByPeriod] returns, without error and without changing anything,
    the stored transactions created from [from] to [to], both instants
    included (in some order). *)
Theorem TransactionRepository_GetByPeriod_members
    (from to : Time) (w : World) :
  exists l,
    memory.TransactionRepository_GetByPeriod from to w = (Ok l, w)
    /\ forall tx,
         tx ∈ l
         <-> (exists id, w_transactions w !! id = Some tx)
             /\ from <= CreatedAt tx <= to.
Proof.
  unfold memory.TransactionRepository_GetByPeriod, mbind, M_bind, bind, gets,
    mret, M_ret, ret.
  eexists. split; [reflexivity|]. intros tx.
  rewrite (sort_Slice_perm _ _ _). rewrite list_elem_of_filter.
  unfold memory.values. rewrite list_elem_of_fmap.
  unfold time_Before, time_After.
  rewrite andb_true_iff, !negb_true_iff, !Z.ltb_ge.
  split.
  - intros [[H1 H2] ([id tx'] & -> & Hin)].
    apply elem_of_map_to_list in Hin. split; [by exists id|done].
  - intros [[id Hid] [H1 H2]]. split; [done|].
    exists (id, tx). split; [done|]. by apply elem_of_map_to_list.
Qed.

(** X19. [Save] stores a rule as version 1 whatever version it carries; an
    [Update] with a value of the same identifier stores that value as
    version 2, whatever version it carries; after [Deactivate] the stored
    rule is inactive, and [GetActiveRules] returns (in some order) the
    active rules that the repository held before under other
    identifiers. *)
Theorem RuleRepository_versions (rule rule' : Rule) (w : World) :
  w_rules w !! rule_ID rule = None ->
  rule_ID rule' = rule_ID rule ->
  exists w1 w2 w3 active,
    memory.RuleRepository_Save rule w = (Ok tt, w1)
    /\ memory.RuleRepository_GetByID (rule_ID rule) w1
       = (Ok (set_Version 1 rule), w1)
    /\ memory.RuleRepository_Update rule' w1 = (Ok tt, w2)
    /\ memory.RuleRepository_GetByID (rule_ID rule) w2
       = (Ok (set_Version 2 rule'), w2)
    /\ memory.RuleRepository_Deactivate (rule_ID rule) w2 = (Ok tt, w3)
    /\ memory.RuleRepository_GetByID (rule_ID rule) w3
       = (Ok (set_IsActive false (set_Version 2 rule')), w3)
    /\ memory.RuleRepository_GetActiveRules w3 = (Ok active, w3)
    /\ forall r,
         r ∈ active
         <-> IsActive r = true
             /\ exists id, id <> rule_ID rule /\ w_rules w !! id = Some r.
Proof.
  intros Hnone Hid.
  unfold memory.RuleRepository_Save, memory.RuleRepository_Update,
    memory.RuleRepository_Deactivate, memory.RuleRepository_GetByID,
    memory.RuleRepository_GetActiveRules.
  unfold mbind, M_bind, bind, gets, modify, mret, M_ret, ret, fail.
  rewrite Hnone, Hid. eexists _, _, _, _.
  split; [reflexivity|]. cbn [w_rules set_rules].
  rewrite lookup_insert_eq. split; [reflexivity|].
  split; [reflexivity|]. cbn [w_rules set_rules].
  rewrite lookup_insert_eq. split; [reflexivity|].
  split; [reflexivity|]. cbn [w_rules set_rules].
  rewrite lookup_insert_eq. split; [reflexivity|].
  split; [reflexivity|].
  intros r. rewrite (sort_Slice_perm _ _ _), list_elem_of_filter.
  unfold memory.values. rewrite list_elem_of_fmap.
  rewrite !insert_insert_eq. split.
  - intros [Hact ([id r'] & -> & Hin)]. split; [done|].
    apply elem_of_map_to_list in Hin. simpl in *.
    destruct (decide (id = rule_ID rule)) as [->|Hne].
    + rewrite lookup_insert_eq in Hin. injection Hin as <-. done.
    + rewrite lookup_insert_ne in Hin by done. by exists id.
  - intros [Hact (id & Hne & Hin)]. split; [done|].
    exists (id, r). split; [done|]. apply elem_of_map_to_list.
    by rewrite lookup_insert_ne.
Qed.

Lemma select_accounts_members keep ps w :
  (forall p, p ∈ ps -> is_Some (w_heap w !! p)) ->
  exists l,
    memory.select_accounts keep ps w = (Ok l, w)
    /\ forall p,
         p ∈ l
         <-> p ∈ ps /\ exists a, w_heap w !! p = Some a /\ keep a = true.
Proof.
  induction ps as [|q ps IH]; intros Hps.
  - exists []. split; [done|]. intros p. split; [by intros ?%elem_of_nil|].
    by intros [?%elem_of_nil _].
  - destruct (Hps q) as [a Ha]; [by left|].
    destruct IH as (l & Hl & Hmem); [intros p Hp; apply Hps; by right|].
    cbn [memory.select_accounts].
    erewrite bind_Ok by (apply load_Ok, Ha).
    erewrite bind_Ok by exact Hl.
    eexists. split; [reflexivity|]. intros p.
    destruct (keep a) eqn:Hk.
    + rewrite !elem_of_cons, Hmem. split.
      * intros [->|[Hp Ha']]; [by eauto|]. by eauto.
      * intros [[->|Hp] Ha']; [by left|]. right. by eauto.
    + rewrite Hmem, elem_of_cons. split.
      * intros [Hp Ha']. by eauto.
      * intros [[->|Hp] (a' & Ha' & Hk')]; [|by eauto].
        rewrite Ha in Ha'. injection Ha' as <-. congruence.
Qed.

(** X24. On a well-formed account repository [GetAllActive] and
    [GetByRiskCategory] return, without error and without changing
    anything, exactly the stored account objects whose status is active,
    respectively whose risk category is the one asked for (in some
    order). *)
Theorem AccountRepository_selections (category : string) (w : World) :
  repo_wf w ->
  (exists l,
     memory.AccountRepository_GetAllActive w = (Ok l, w)
     /\ forall p,
          p ∈ l
          <-> exists id a,
                w_accounts w !! id = Some p /\ w_heap w !! p = Some a
                /\ acc_Status a = AccountActive)
  /\ (exists l,
        memory.AccountRepository_GetByRiskCategory category w = (Ok l, w)
        /\ forall p,
             p ∈ l
             <-> exists id a,
                   w_accounts w !! id = Some p /\ w_heap w !! p = Some a
                   /\ RiskCategory a = category).
Proof.
  intros Hwf.
  assert (Hvalues : forall p,
    p ∈ memory.values (w_accounts w) <-> exists id, w_accounts w !! id = Some p).
  { intros p. unfold memory.values. rewrite list_elem_of_fmap. split.
    - intros ([id p'] & -> & Hin). exists id. by apply elem_of_map_to_list.
    - intros [id Hid]. exists (id, p). split; [done|].
      by apply elem_of_map_to_list. }
  assert (Hheap : forall p,
    p ∈ memory.values (w_accounts w) -> is_Some (w_heap w !! p)).
  { intros p [id Hid]%Hvalues. destruct (Hwf _ _ Hid) as (a & Ha & _).
    by exists a. }
  split.
  - destruct (select_accounts_members
                (fun a => String.eqb (acc_Status a) AccountActive) _ w Hheap)
      as (l & Hl & Hmem).
    exists l. split; [exact Hl|]. intros p. rewrite Hmem, Hvalues.
    setoid_rewrite String.eqb_eq. naive_solver.
  - destruct (select_accounts_members
                (fun a => String.eqb (RiskCategory a) category) _ w Hheap)
      as (l & Hl & Hmem).
    exists l. split; [exact Hl|]. intros p. rewrite Hmem, Hvalues.
    setoid_rewrite String.eqb_eq. naive_solver.
Qed.


End repositories.

(** ** The rule cache *)

Section rule_cache.
Context `{!GoLib}.



End rule_cache.

(** ** The fraud score *)

Section fraud_score.
Context `{!GoLib}.

(** X21. The amount and the hour alone never make a transaction suspicious:
    without the location ["high_risk_country"] and without the velocity
    ["high"] in its metadata the score is at most 70, so a score above
    the threshold of 80 needs one of the two. *)
Theorem AnalyzeTransaction_suspicious_needs_metadata
    (tx : Transaction) (w : World) (riskScore : Z) (flags : list string) :
  (processor.AnalyzeTransaction processor.NewFraudDetector tx w).1
  = Ok (riskScore, flags) ->
  (metadata_get tx "location" <> Some "high_risk_country"
   /\ metadata_get tx "velocity" <> Some "high" -> riskScore <= 70)
  /\ (80 < riskScore ->
      metadata_get tx "location" = Some "high_risk_country"
      \/ metadata_get tx "velocity" = Some "high").
Proof.
  rewrite AnalyzeTransaction_eq. cbn [fst]. intros [= <- _].
  set (hour1 := time_Hour _). set (hour2 := time_Hour _).
  unfold detector_sum, surcharge, weight_if, geographical_anomaly,
    velocity_check.
  destruct (large_amount tx), (frequent_transactions tx hour1),
    (decide (metadata_get tx "location" = Some "high_risk_country"))
      as [Hl|Hl],
    (decide (metadata_get tx "velocity" = Some "high")) as [Hv|Hv];
    rewrite ?(bool_decide_eq_true_2 _ Hl), ?(bool_decide_eq_false_2 _ Hl),
      ?(bool_decide_eq_true_2 _ Hv), ?(bool_decide_eq_false_2 _ Hv);
    destruct (late_night hour2); simpl; split; intros; tauto || lia.
Qed.

End fraud_score.

(** ** The HTTP handlers *)

Section handlers.
Context `{!GoLib}.

(** X22. [GetTransactionHandler] changes nothing and answers 400 to an empty
    identifier and 200 with the stored transaction to a known one; to an
    unknown identifier it answers 500, never 404: the repository wraps
    [ErrNotFound], and the handler compares the error it gets with
    [ErrNotFound] itself. *)
Theorem GetTransactionHandler_answers (transactionID : string) (w : World) :
  api.GetTransactionHandler transactionID w
  = (Ok (if String.eqb transactionID "" then
           api.mkResponse api.StatusBadRequest "MISSING_ID" None
         else
           match w_transactions w !! transactionID with
           | Some tx => api.mkResponse api.StatusOK "" (Some tx)
           | None =>
               api.mkResponse api.StatusInternalServerError "SERVER_ERROR"
                 None
           end), w)
  /\ forall response,
       (api.GetTransactionHandler transactionID w).1 = Ok response ->
       api.statusCode response <> api.StatusNotFound.
Proof.
  assert (Heq : api.GetTransactionHandler transactionID w
    = (Ok (if String.eqb transactionID "" then
             api.mkResponse api.StatusBadRequest "MISSING_ID" None
           else
             match w_transactions w !! transactionID with
             | Some tx => api.mkResponse api.StatusOK "" (Some tx)
             | None =>
                 api.mkResponse api.StatusInternalServerError "SERVER_ERROR"
                   None
             end), w)).
  { unfold api.GetTransactionHandler, processor.GetTransaction,
      memory.TransactionRepository_GetByID.
    destruct (String.eqb transactionID ""); [reflexivity|].
    unfold mbind, M_bind, bind, try, gets, mret, M_ret, ret, fail.
    by destruct (w_transactions w !! transactionID). }
  split; [exact Heq|]. rewrite Heq. intros response [= <-].
  destruct (String.eqb transactionID ""); [done|].
  by destruct (w_transactions w !! transactionID).
Qed.

Lemma request_transaction_fields id now req :
  let tx := api.request_transaction id now req in
  ID tx = id /\ Type_ tx = api.req_Type req
  /\ Amount tx = api.req_Amount req /\ Currency tx = api.req_Currency req
  /\ FromAccountID tx = api.req_FromAccountID req
  /\ ToAccountID tx = api.req_ToAccountID req
  /\ CreatedAt tx = now.
Proof.
  cbv zeta. unfold api.request_transaction.
  set (tx0 := WithAccounts _ _ _).
  assert (H0 : ID tx0 = id /\ Type_ tx0 = api.req_Type req
    /\ Amount tx0 = api.req_Amount req /\ Currency tx0 = api.req_Currency req
    /\ FromAccountID tx0 = api.req_FromAccountID req
    /\ ToAccountID tx0 = api.req_ToAccountID req
    /\ CreatedAt tx0 = now) by done.
  revert H0. generalize tx0. clear tx0.
  induction (api.req_Metadata req) as [|[k v] l IH]; intros tx0 H0; [done|].
  simpl. apply IH. unfold AddMetadata. by destruct (Metadata tx0).
Qed.

(** X23. Which requests that pass the handler's own check are then accepted
    by the validator, for a new identifier: those whose currency is three
    upper-case letters (the handler counts the bytes only), whose
    transfer does not name one account twice, and whose creation instant
    is not more than five minutes after the instant the validator
    reads. *)
Theorem accepted_request_validation
    (id : string) (now : Time) (req : api.CreateTransactionRequest)
    (w : World) :
  api.validateTransactionRequest req = Ok tt ->
  id ∉ w_seen w ->
  (validator.ValidateTransaction (api.request_transaction id now req) w).1
  = Ok tt
  <-> (exists a b c,
         api.req_Currency req = String a (String b (String c EmptyString))
         /\ upper_letter a /\ upper_letter b /\ upper_letter c)
      /\ (api.req_Type req = TypeTransfer ->
          api.req_FromAccountID req <> api.req_ToAccountID req)
      /\ now <= w_clock w (w_ticks w) + 5 * Minute.
Proof.
  intros Hreq Hnew.
  destruct (request_transaction_fields id now req)
    as (Hid & Hty & Ham & Hcu & Hfr & Hto & Hcr).
  rewrite ValidateTransaction_fresh by by rewrite Hid.
  cbn [fst].
  assert (Hacc : acceptable (api.request_transaction id now req)
                   (w_clock w (w_ticks w))
                 <-> (exists a b c,
         api.req_Currency req = String a (String b (String c EmptyString))
         /\ upper_letter a /\ upper_letter b /\ upper_letter c)
      /\ (api.req_Type req = TypeTransfer ->
          api.req_FromAccountID req <> api.req_ToAccountID req)
      /\ now <= w_clock w (w_ticks w) + 5 * Minute).
  { unfold acceptable. rewrite Hty, Ham, Hcu, Hfr, Hto, Hcr.
    unfold api.validateTransactionRequest in Hreq.
    destruct (Qle_bool (api.req_Amount req) 0) eqn:Hle; [done|].
    assert (Hpos : (0 < api.req_Amount req)%Q).
    { apply Qnot_le_lt. intros Hq. apply Qle_bool_iff in Hq. congruence. }
    destruct (String.eqb (api.req_Currency req) ""); [done|].
    destruct (negb _); [done|].
    destruct (String.eqb_spec (api.req_Type req) TypeTransfer) as [Ht|Ht].
    - destruct (String.eqb_spec (api.req_FromAccountID req) "") as [|Hf];
        [done|].
      destruct (String.eqb_spec (api.req_ToAccountID req) "") as [|Ht'];
        [done|].
      tauto.
    - tauto. }
  rewrite <- Hacc, <- violations_nil_iff.
  by destruct (violations _ _).
Qed.

End handlers.

(** ** The properties above on the sample data *)

Lemma AccountRepository_Save_GetByID_witness :
  exists s',
    memory.AccountRepository_Save 0%nat (world_unsaved, ∅)
    = (Ok tt, s')
    /\ memory.AccountRepository_GetByID "a1" s'.1
       = (Ok 0%nat, s'.1).
Proof.
  destruct (AccountRepository_Save_GetByID 0%nat acct_a1
              world_unsaved ∅) as (s' & Hs & Hg & _); try reflexivity.
  by exists s'.
Defined.

Lemma TransactionRepository_Save_GetByID_witness :
  exists w',
    memory.TransactionRepository_Save tx_deposit world0
    = (Ok (set_UpdatedAt noon tx_deposit), w')
    /\ memory.TransactionRepository_GetByID "tx1" w'
       = (Ok (set_UpdatedAt noon tx_deposit), w').
Proof.
  destruct (TransactionRepository_Save_GetByID tx_deposit
              StatusCompleted world0) as (w' & Hs & Hg & _);
    [reflexivity|].
  by exists w'.
Defined.

Lemma RuleRepository_versions_witness :
  exists w1,
    memory.RuleRepository_Save rule_high_amount world0
    = (Ok tt, w1)
    /\ memory.RuleRepository_GetByID "r3" w1
       = (Ok (set_Version 1 rule_high_amount), w1).
Proof.
  destruct (@RuleRepository_versions sample_lib rule_high_amount
              rule_high_amount world0)
    as (w1 & _ & _ & _ & Hs & Hg & _); try reflexivity.
  by exists w1.
Defined.


Lemma AnalyzeTransaction_suspicious_needs_metadata_witness :
  metadata_get tx_high "location" = Some "high_risk_country"
  \/ metadata_get tx_high "velocity" = Some "high".
Proof.
  apply (@AnalyzeTransaction_suspicious_needs_metadata sample_lib tx_high
           world0 100
           ["large_amount"; "geographical_anomaly"; "velocity_anomaly"]).
  - vm_compute; reflexivity.
  - lia.
Defined.

Lemma accepted_request_validation_witness :
  (validator.ValidateTransaction
     (api.request_transaction "tx9" noon request_deposit) world0).1
  = Ok tt.
Proof.
  apply (accepted_request_validation "tx9" noon request_deposit
           world0).
  - reflexivity.
  - apply not_elem_of_empty.
  - split; [|split].
    + exists "U"%char, "S"%char, "D"%char.
      repeat split; vm_compute; lia.
    + discriminate.
    + vm_compute. discriminate.
Defined.

Lemma AccountRepository_selections_witness :
  exists l, @memory.AccountRepository_GetAllActive world0 = (Ok l, world0).
Proof.
  destruct (AccountRepository_selections "" world0 world0_wf)
    as [(l & Hl & _) _].
  by exists l.
Defined.

